(** * convert_to_432hz.py: tuning analysis and iterative correction

    A shallow embedding of [analyze_tuning], [convert_to_432hz] and the path
    derivation of [batch_convert], with the properties of the tuning
    estimator and of the correction loop.

    Numbers.  numpy's floating-point values are read as exact rationals
    ([Q]); [int] values are [Z].  Equality of measured values is [Qeq]
    where a computation is involved.

    Collaborators.  The libraries the script calls are not part of it.
    They are the fields of the class [Collaborators]: the real-input
    transform [rfft] with the modulus [cabs] of its values, numpy's
    [argsort], the two audioop conversions pydub delegates to
    ([tomono], [ratecv]), and what the file system lets the script
    write ([writable]).  What the script itself decides (the capture
    band, the centroid, the slice of five, the loop, the paths) is
    written out.  Reading a missing file raises; so does writing to a
    path that cannot be opened for writing. *)

From Stdlib Require Import ZArith QArith Qabs Qround List String Ascii Lia Lqa.
From Stdlib Require Import DecimalString.
From Stdlib Require Import Permutation Sorted.
From stdpp Require Import base gmap strings.
Import ListNotations.

Open Scope Q_scope.

(** ** numpy array operations used by the script *)

Module Np.

(** [a.sum()]. *)
Definition sum (a : list Q) : Q := fold_right Qplus 0 a.

(** [a * w], element by element. *)
Fixpoint multiply (a w : list Q) : list Q :=
  match a, w with
  | x :: a', y :: w' => x * y :: multiply a' w'
  | _, _ => []
  end.

(** [np.average(a, weights=w)] on arrays of one shape: the weights are
    summed first, a zero sum raises [ZeroDivisionError] ([None] here),
    otherwise the result is [(a * w).sum() / w.sum()]. *)
Definition average (a w : list Q) : option Q :=
  let scl := sum w in
  if Qeq_bool scl 0 then None else Some (sum (multiply a w) / scl).

(** [a[mask]] for a boolean [mask]: the elements at the true positions;
    a mask of another length raises [IndexError]. *)
Fixpoint bool_index {A : Type} (a : list A) (mask : list bool) : option (list A) :=
  match a, mask with
  | [], [] => Some []
  | x :: a', b :: mask' =>
      match bool_index a' mask' with
      | Some r => Some (if b then x :: r else r)
      | None => None
      end
  | _, _ => None
  end.

(** [a[idx]] for an array of indices: out of range raises [IndexError]. *)
Fixpoint int_index {A : Type} (a : list A) (idx : list nat) : option (list A) :=
  match idx with
  | [] => Some []
  | i :: idx' =>
      match nth_error a i, int_index a idx' with
      | Some x, Some r => Some (x :: r)
      | _, _ => None
      end
  end.

(** [scipy.fft.rfftfreq(n, d)]: [val = 1.0 / (n * d)] and the bins
    [0 .. n // 2] scaled by [val]. *)
Definition rfftfreq (n : nat) (d : Q) : list Q :=
  let val := 1 / (inject_Z (Z.of_nat n) * d) in
  map (fun i => inject_Z (Z.of_nat i) * val) (seq 0 (n / 2 + 1)).

End Np.

(** ** Audio segments and tuning reports *)

(** A pydub [AudioSegment], as far as the script looks at it: the PCM
    samples (interleaved when there are several channels), the channel
    count and the frame rate. *)
Record AudioSegment : Type := mkAudio {
  raw_data : list Z;
  channels : Z;
  frame_rate : Z
}.

(** The dictionary [analyze_tuning] returns. *)
Record TuningInfo : Type := mkInfo {
  dominant_freq : Q;
  sample_rate : Z;
  duration : Q;
  harmonics : list Q
}.

(** The capture band test of line 27: [(f >= 400) & (f <= 500)]. *)
Definition in_band (f : Q) : bool := Qle_bool 400 f && Qle_bool f 500.

(** How a Python call ends: with a value, with an exception, or (for the
    fuelled loop only) without an answer within the fuel given. *)
Inductive outcome (A : Type) : Type :=
| Return (a : A)
| Raise
| OutOfFuel.
Arguments Return {A} a.
Arguments Raise {A}.
Arguments OutOfFuel {A}.

(** A library call that either yields a value or raises. *)
Definition or_raise {A : Type} (o : option A) : outcome A :=
  match o with Some a => Return a | None => Raise end.

(** The library functions the script relies on. *)
Class Collaborators : Type := {
  (** values of scipy's [rfft] *)
  complex : Type;
  (** [scipy.fft.rfft] on a non-empty real array *)
  rfft : list Q -> list complex;
  (** [np.abs] on those values *)
  cabs : complex -> Q;
  (** [np.argsort] with its default [kind] *)
  argsort : list Q -> list nat;
  (** [audioop.tomono] and its multi-channel variant, by channel count *)
  tomono : Z -> list Z -> list Z;
  (** [audioop.ratecv data channels inrate outrate]; [None] when it raises *)
  ratecv : list Z -> Z -> Z -> Z -> option (list Z);
  (** can the path be opened for writing?  [audio.export] opens it
      before it writes anything, and raises when that fails (a missing
      directory, no permission) *)
  writable : string -> bool
}.

Section Estimator.

Context {L : Collaborators}.

(** The body of [analyze_tuning] once the samples are loaded (lines
    22-40).  [Return None] is the [return None] of line 40; [Raise] is
    an exception, which line 41 will catch. *)
Definition analyze_buffer (samples : list Q) (rate : Z) : outcome (option TuningInfo) :=
  match samples with
  | [] => Raise (* rfft rejects an empty array *)
  | _ :: _ =>
    if (rate =? 0)%Z then Raise (* 1 / sample_rate *)
    else
      let fft_vals := rfft samples in
      let fft_freqs := Np.rfftfreq (length samples) (1 / inject_Z rate) in
      let valid_indices := map in_band fft_freqs in
      match Np.bool_index fft_vals valid_indices,
            Np.bool_index fft_freqs valid_indices with
      | Some vals_in_band, Some filtered_fft_freqs =>
          let filtered_fft_vals := map cabs vals_in_band in
          if (0 <? length filtered_fft_vals)%nat then
            match Np.average filtered_fft_freqs filtered_fft_vals with
            | Some dominant =>
                match Np.int_index filtered_fft_freqs
                        (firstn 5 (argsort (map Qopp filtered_fft_vals))) with
                | Some top =>
                    Return (Some {| dominant_freq := dominant;
                                    sample_rate := rate;
                                    duration := inject_Z (Z.of_nat (length samples))
                                                / inject_Z rate;
                                    harmonics := top |})
                | None => Raise
                end
            | None => Raise
            end
          else Return None
      | _, _ => Raise
      end
  end.

End Estimator.

(** ** Strings and paths *)

Module Py.

(** [s.replace(old, new)] for a non-empty [old]: every occurrence, left
    to right, without overlap.  [skip] counts the characters of a match
    still to be dropped. *)
Fixpoint replace_from (old new : string) (skip : nat) (s : string) : string :=
  match s with
  | EmptyString => EmptyString
  | String c s' =>
      match skip with
      | S k => replace_from old new k s'
      | O =>
          if String.prefix old s
          then new ++ replace_from old new (String.length old - 1) s'
          else String c (replace_from old new 0 s')
      end
  end.

Definition replace (s old new : string) : string := replace_from old new 0 s.

(** [str(i)] for an [int]. *)
Definition str (i : Z) : string := NilZero.string_of_int (Z.to_int i).

(** The index one past the last occurrence of [c] in [s] ([rfind + 1]),
    [0] when there is none. *)
Fixpoint after_last (c : ascii) (s : string) : nat :=
  match s with
  | EmptyString => 0
  | String a s' =>
      match after_last c s' with
      | O => if Ascii.eqb a c then 1 else 0
      | S k => S (S k)
      end
  end.

(** Is some character of [s] in positions [lo .. hi - 1] different from
    a dot? (the loop of [genericpath._splitext] over the leading dots) *)
Definition non_dot_between (s : string) (lo hi : nat) : bool :=
  existsb (fun a => negb (Ascii.eqb a "."))
          (list_ascii_of_string (substring lo (hi - lo) s)).

(** [os.path.splitext(p)] (posixpath): the extension starts at the last
    dot of the last component, unless that component has only dots
    before it. *)
Definition splitext (p : string) : string * string :=
  let sep_end := after_last "/" p in
  let dot_end := after_last "." p in
  if (sep_end <? dot_end)%nat && non_dot_between p sep_end (dot_end - 1)
  then (substring 0 (dot_end - 1) p,
        substring (dot_end - 1) (String.length p - (dot_end - 1)) p)
  else (p, EmptyString).

(** [os.path.join(a, b)] (posixpath). *)
Definition join (a b : string) : string :=
  if String.prefix "/" b then b
  else if (String.length a =? 0)%nat
          || Ascii.eqb (match get (String.length a - 1) a with
                        | Some c => c | None => " " end) "/"
       then a ++ b
       else a ++ "/" ++ b.

End Py.

(** Line 129 of [batch_convert], from the output folder and the path of
    the file relative to the input folder (line 127). *)
Definition batch_output_path (output_folder relative_path : string) : string :=
  let output_path := Py.join output_folder relative_path in
  fst (Py.splitext output_path) ++ "_432Hz.wav".

(** Line 81: the scratch path of an iteration. *)
Definition temp_output_path (output_path : string) (iteration : Z) : string :=
  Py.replace output_path ".wav" ("_temp_" ++ Py.str iteration ++ ".wav").

(** The paths in the words of the naming convention:
    [<relative-path-without-extension>_432Hz.wav] under the output
    folder, and [<output-path-without-extension>_temp_<i>.wav]. *)
Definition described_output_path (output_folder relative_path : string) : string :=
  Py.join output_folder (fst (Py.splitext relative_path) ++ "_432Hz.wav").

Definition described_temp_path (output_path : string) (iteration : Z) : string :=
  fst (Py.splitext output_path) ++ "_temp_" ++ Py.str iteration ++ ".wav".

(** ** Effects: the file system and what a run does *)

(** The lines the script prints, with the values they show. *)
Inductive Msg : Type :=
| ErrorAnalyzing (file_path : string)                     (* line 42 *)
| CouldNotAnalyze (file_path : string)                    (* line 54 *)
| TuningInfoFor (file_path : string)                      (* line 58 *)
| DominantFrequency (f : Q)                               (* line 59 *)
| Harmonics (hs : list Q)                                 (* line 60 *)
| AlreadyBelow (file_path : string)                       (* line 64 *)
| ApplyingSpeedRatio (number : Z) (speed_ratio : Q)       (* line 73 *)
| CouldNotReanalyze (number : Z)                          (* line 87 *)
| PostAdjustment (f : Q)                                  (* line 91 *)
| VerificationSuccessful (output_path : string) (f : Q)   (* line 95 *)
| VerificationFailed (max_iterations : Z) (f : Q)         (* line 102 *)
| ErrorConverting (file_path : string).                   (* line 106 *)

(** What a run does, in order. *)
Inductive Event : Type :=
| Print (m : Msg)
| Analyzed (file_path : string) (report : option TuningInfo)
| Resample (audio : AudioSegment) (speed_ratio : Q) (result : AudioSegment)
| Export (path : string) (audio : AudioSegment)
| Rename (src dst : string).

(** The files, by path, as the audio they decode to. *)
Abbreviation Files := (gmap string AudioSegment).

(** A computation reads and changes the files and leaves a trace. *)
Definition M (A : Type) : Type := Files -> outcome A * Files * list Event.

Definition ret {A : Type} (a : A) : M A := fun fs => (Return a, fs, []).

Definition bind {A B : Type} (m : M A) (k : A -> M B) : M B :=
  fun fs =>
    match m fs with
    | (Return a, fs1, t1) =>
        match k a fs1 with
        | (r, fs2, t2) => (r, fs2, t1 ++ t2)
        end
    | (Raise, fs1, t1) => (Raise, fs1, t1)
    | (OutOfFuel, fs1, t1) => (OutOfFuel, fs1, t1)
    end.

Notation "x <- m ;; k" := (bind m (fun x => k))
  (at level 100, m at next level, right associativity).
Notation "m ;; k" := (bind m (fun _ => k))
  (at level 100, right associativity).

(** [try: body except Exception: handler]. *)
Definition try_except {A : Type} (body handler : M A) : M A :=
  fun fs =>
    match body fs with
    | (Raise, fs1, t1) =>
        match handler fs1 with
        | (r, fs2, t2) => (r, fs2, t1 ++ t2)
        end
    | other => other
    end.

Definition lift {A : Type} (o : outcome A) : M A := fun fs => (o, fs, []).
Definition emit (e : Event) : M unit := fun fs => (Return tt, fs, [e]).
Definition print (m : Msg) : M unit := emit (Print m).

(** [AudioSegment.from_file(path)]. *)
Definition from_file (path : string) : M AudioSegment :=
  fun fs => (or_raise (fs !! path), fs, []).

(** [os.rename(src, dst)]. *)
Definition rename (src dst : string) : M unit :=
  fun fs =>
    match fs !! src with
    | Some audio => (Return tt, <[dst := audio]> (delete src fs), [Rename src dst])
    | None => (Raise, fs, [])
    end.

(** [int(x)] for a float: truncation towards zero. *)
Definition int_of (x : Q) : Z := if Qle_bool 0 x then Qfloor x else Qceiling x.

Section Script.

Context {L : Collaborators}.

(** [audio.export(path, format="wav")]: the file is opened first, and
    nothing is written when that raises. *)
Definition export (audio : AudioSegment) (path : string) : M unit :=
  fun fs =>
    if writable path
    then (Return tt, <[path := audio]> fs, [Export path audio])
    else (Raise, fs, []).

(** pydub's [set_channels(1)]: a mono segment is returned as it is. *)
Definition set_channels_mono (audio : AudioSegment) : AudioSegment :=
  if (channels audio =? 1)%Z then audio
  else {| raw_data := tomono (channels audio) (raw_data audio);
          channels := 1;
          frame_rate := frame_rate audio |}.

(** pydub's [set_frame_rate]: the same segment when the rate is already
    the one asked for, [audioop.ratecv] otherwise. *)
Definition set_frame_rate (audio : AudioSegment) (rate : Z) : outcome AudioSegment :=
  if (rate =? frame_rate audio)%Z then Return audio
  else
    match ratecv (raw_data audio) (channels audio) (frame_rate audio) rate with
    | Some converted =>
        Return {| raw_data := converted; channels := channels audio; frame_rate := rate |}
    | None => Raise
    end.

(** Lines 12-43. *)
Definition analyze_tuning (file_path : string) : M (option TuningInfo) :=
  report <-
    try_except
      (loaded <- from_file file_path ;;
       let audio := set_channels_mono loaded in
       let samples := map inject_Z (raw_data audio) in
       lift (analyze_buffer samples (frame_rate audio)))
      (print (ErrorAnalyzing file_path) ;; ret None) ;;
  emit (Analyzed file_path report) ;;
  ret report.

(** Line 76: the same samples, taken to be at the scaled frame rate. *)
Definition spawned (audio : AudioSegment) (speed_ratio : Q) : AudioSegment :=
  {| raw_data := raw_data audio;
     channels := channels audio;
     frame_rate := int_of (inject_Z (frame_rate audio) * speed_ratio) |}.

(** Lines 76-78: the speed change. *)
Definition change_speed (audio : AudioSegment) (speed_ratio : Q) : M AudioSegment :=
  result <- lift (set_frame_rate (spawned audio speed_ratio) (frame_rate audio)) ;;
  emit (Resample audio speed_ratio result) ;;
  ret result.

Section Convert.

Variables (file_path output_path : string) (max_iterations : Z) (tolerance : Q).

(** Lines 101-104. *)
Definition save_last_attempt (audio : AudioSegment) (dominant : Q) : M bool :=
  print (VerificationFailed max_iterations dominant) ;;
  export audio output_path ;;
  ret false.

(** Lines 71-99, one unit of fuel per test of the loop condition. *)
Fixpoint correction_loop (fuel : nat) (iteration : Z)
         (audio : AudioSegment) (dominant : Q) : M bool :=
  match fuel with
  | O => lift OutOfFuel
  | S fuel' =>
      if (iteration <? max_iterations)%Z then
        let speed_ratio := 432 / dominant in
        print (ApplyingSpeedRatio (iteration + 1) speed_ratio) ;;
        audio' <- change_speed audio speed_ratio ;;
        let temp := temp_output_path output_path iteration in
        export audio' temp ;;
        tuning_info <- analyze_tuning temp ;;
        match tuning_info with
        | None =>
            print (CouldNotReanalyze (iteration + 1)) ;;
            save_last_attempt audio' dominant
        | Some info =>
            let dominant' := dominant_freq info in
            print (PostAdjustment dominant') ;;
            if Qle_bool (Qabs (dominant' - 432)) tolerance then
              print (VerificationSuccessful output_path dominant') ;;
              rename temp output_path ;;
              ret true
            else correction_loop fuel' (iteration + 1) audio' dominant'
        end
      else save_last_attempt audio dominant
  end.

(** The loop condition is tested at most [max_iterations + 1] times. *)
Definition loop_fuel : nat := S (Z.to_nat max_iterations).

(** Lines 46-107. *)
Definition convert_to_432hz : M bool :=
  try_except
    (tuning_info <- analyze_tuning file_path ;;
     match tuning_info with
     | None => print (CouldNotAnalyze file_path) ;; ret false
     | Some info =>
         let dominant := dominant_freq info in
         print (TuningInfoFor file_path) ;;
         print (DominantFrequency dominant) ;;
         print (Harmonics (harmonics info)) ;;
         if negb (Qle_bool 432 dominant) then
           print (AlreadyBelow file_path) ;; ret false
         else
           audio <- from_file file_path ;;
           correction_loop loop_fuel 0 audio dominant
     end)
    (print (ErrorConverting file_path) ;; ret false).

End Convert.

End Script.

(** ** Reading a run *)

Definition result_of {A : Type} (r : outcome A * Files * list Event) : outcome A := fst (fst r).
Definition files_of {A : Type} (r : outcome A * Files * list Event) : Files := snd (fst r).
Definition trace_of {A : Type} (r : outcome A * Files * list Event) : list Event := snd r.

(** The segments produced by the speed changes of a trace, in order. *)
Definition resampled (tr : list Event) : list AudioSegment :=
  flat_map (fun e => match e with Resample _ _ a => [a] | _ => [] end) tr.

(** Is the event a write to the file system? *)
Definition is_write (e : Event) : bool :=
  match e with Export _ _ | Rename _ _ => true | _ => false end.

(** Is the event a speed change? *)
Definition is_resample (e : Event) : bool :=
  match e with Resample _ _ _ => true | _ => false end.

(** The events of a turn of the loop up to the analysis of its
    candidate: lines 73-85.  [err] is what the analysis prints. *)
Definition turn_trace (output_path : string) (iteration : Z)
           (audio audio' : AudioSegment) (dominant : Q)
           (err : list Event) (report : option TuningInfo) : list Event :=
  Print (ApplyingSpeedRatio (iteration + 1) (432 / dominant))
  :: Resample audio (432 / dominant) audio'
  :: Export (temp_output_path output_path iteration) audio'
  :: err ++ [Analyzed (temp_output_path output_path iteration) report].

(** The events of a conversion before its loop: lines 52-60. *)
Definition opening_trace (file_path : string) (info : TuningInfo) : list Event :=
  [Analyzed file_path (Some info);
   Print (TuningInfoFor file_path);
   Print (DominantFrequency (dominant_freq info));
   Print (Harmonics (harmonics info))].

(** The number of iterations begun: each one starts with line 73. *)
Definition iterations (tr : list Event) : nat :=
  length (List.filter (fun e => match e with
                                | Print (ApplyingSpeedRatio _ _) => true
                                | _ => false
                                end) tr).

(** The dominant frequency of the latest analysis of the trace that gave
    a report; [measured] when there is none. *)
Fixpoint measured_after (measured : option Q) (tr : list Event) : option Q :=
  match tr with
  | [] => measured
  | Analyzed _ (Some info) :: tr' => measured_after (Some (dominant_freq info)) tr'
  | _ :: tr' => measured_after measured tr'
  end.

(** Is [r] the ratio [432 / f] for the frequency [f] measured last? *)
Definition ratio_of (measured : option Q) (r : Q) : Prop :=
  match measured with
  | Some f => r = 432 / f
  | None => False
  end.

(** Every iteration of the trace announces and applies [432 / f], [f]
    being the dominant frequency of the latest analysis that gave a
    report; [measured] is that frequency at the start of the trace. *)
Fixpoint ratios_follow (measured : option Q) (tr : list Event) : Prop :=
  match tr with
  | [] => True
  | Analyzed _ (Some info) :: tr' => ratios_follow (Some (dominant_freq info)) tr'
  | Print (ApplyingSpeedRatio _ r) :: tr' => ratio_of measured r /\ ratios_follow measured tr'
  | Resample _ r _ :: tr' => ratio_of measured r /\ ratios_follow measured tr'
  | _ :: tr' => ratios_follow measured tr'
  end.



(** ** The estimator, in the words of its description *)

Section Described.

Context {L : Collaborators}.

(** The mono sample buffer the analysis of a segment works on. *)
Definition buffer_of (audio : AudioSegment) : list Q :=
  map inject_Z (raw_data (set_channels_mono audio)).

(** The FFT bins of a buffer: frequency [i * rate / n] and magnitude. *)
Definition fft_bins (samples : list Q) (rate : Z) : list (Q * Q) :=
  combine (Np.rfftfreq (length samples) (1 / inject_Z rate))
          (map cabs (rfft samples)).

(** The bins whose frequency lies in [400, 500]. *)
Definition capture_band (bins : list (Q * Q)) : list (Q * Q) :=
  List.filter (fun b => in_band (fst b)) bins.

(** The report the analysis has for a segment, if any. *)
Definition report_of (audio : AudioSegment) : option TuningInfo :=
  match analyze_buffer (buffer_of audio) (frame_rate (set_channels_mono audio)) with
  | Return r => r
  | _ => None
  end.

(** The report the analysis has for a path: the one of the file there. *)
Definition report_at (fs : Files) (path : string) : option TuningInfo :=
  match fs !! path with
  | Some audio => report_of audio
  | None => None
  end.


(** [sum(freq_i * |mag_i|) / sum(|mag_i|)]. *)
Definition centroid (bins : list (Q * Q)) : Q :=
  Np.sum (map (fun b => fst b * snd b) bins) / Np.sum (map snd bins).

(** Insertion of a bin in front of later bins ranked by descending
    magnitude: behind those of strictly greater magnitude, in front of
    the first one of equal or smaller magnitude. *)
Fixpoint rank_insert (b : Q * Q) (ranked : list (Q * Q)) : list (Q * Q) :=
  match ranked with
  | [] => [b]
  | c :: rest =>
      if Qle_bool (snd c) (snd b) then b :: ranked
      else c :: rank_insert b rest
  end.

(** The bins by descending magnitude, equal magnitudes in bin order
    (a stable sort). *)
Definition rank_stable (bins : list (Q * Q)) : list (Q * Q) :=
  fold_right rank_insert [] bins.


End Described.


(** ** Stand-ins for the collaborators, for concrete runs *)

(** Index insertion sort; [before x y] says whether an index with value
    [x] goes in front of one with value [y] met later in the array. *)
Fixpoint insert_index (before : Q -> Q -> bool) (a : list Q) (i : nat)
         (sorted : list nat) : list nat :=
  match sorted with
  | [] => [i]
  | j :: rest =>
      if before (nth i a 0) (nth j a 0) then i :: sorted
      else j :: insert_index before a i rest
  end.

Definition argsort_with (before : Q -> Q -> bool) (a : list Q) : list nat :=
  fold_right (insert_index before a) [] (seq 0 (length a)).

(** Equal values keep their order. *)
Definition argsort_stable : list Q -> list nat := argsort_with Qle_bool.

(** The index quicksort of numpy's [npysort] ([aquicksort], the sort
    behind the default [kind] of [np.argsort] where no vectorised
    routine is dispatched): ranges of more than 17 indices are
    partitioned around the median of their first, middle and last
    value, shorter ones are sorted by insertion.  [t] is the array of
    indices, [pl], [pi], [pj], [pr] are positions in it. *)
Section Quicksort.

Variable v : list Q.











End Quicksort.


(** The transform of an impulse [[c; 0; ...; 0]] is [c] in every bin.
    This stand-in is the exact transform on such buffers; its values
    are real, so the modulus is [Qabs]. *)
Definition impulse_rfft (samples : list Q) : list Q :=
  repeat (hd 0 samples) (length samples / 2 + 1).


Definition stand_in (transform : list Q -> list Q) (sort : list Q -> list nat)
           (resampler : list Z -> Z -> Z -> Z -> option (list Z))
           (can_write : string -> bool) : Collaborators :=
  {| complex := Q;
     rfft := transform;
     cabs := Qabs;
     argsort := sort;
     tomono := fun _ data => data;
     ratecv := resampler;
     writable := can_write |}.

(** A rate conversion that is never reached (equal rates only). *)
Definition no_ratecv : list Z -> Z -> Z -> Z -> option (list Z) :=
  fun _ _ _ _ => None.

(** A rate conversion whose output is silent. *)
Definition silent_ratecv : list Z -> Z -> Z -> Z -> option (list Z) :=
  fun data _ _ _ => Some (map (fun _ => 0%Z) data).

(** Every path can be written. *)
Definition all_writable : string -> bool := fun _ => true.


(** An impulse of two samples at the given frame rate: its spectrum has
    the bins [0] and [rate / 2], both of magnitude one. *)
Definition impulse2 (rate : Z) : AudioSegment :=
  {| raw_data := [1%Z; 0%Z]; channels := 1; frame_rate := rate |}.




(** The collaborators of the concrete runs: the insertion sort and
    equal rates only; the same with a silent rate conversion; with
    the transform of the comb; with numpy's quicksort; with an
    [out.wav] that cannot be written. *)
Definition lab : Collaborators :=
  stand_in impulse_rfft argsort_stable no_ratecv all_writable.
Definition lab_silent : Collaborators :=
  stand_in impulse_rfft argsort_stable silent_ratecv all_writable.

(** The report of [impulse2 rate] when [rate / 2] is in the capture band. *)
Definition impulse2_info (rate : Z) : TuningInfo :=
  {| dominant_freq := rate # 2;
     sample_rate := rate;
     duration := 2 # Z.to_pos rate;
     harmonics := [rate # 2] |}.

(** Two silent samples. *)
Definition silence2 (rate : Z) : AudioSegment :=
  {| raw_data := [0%Z; 0%Z]; channels := 1; frame_rate := rate |}.

(** A file system with one file. *)
Definition one_file (path : string) (audio : AudioSegment) : Files :=
  <[path := audio]> ∅.

(** The two-sample impulse at a frame rate, as the file [tone.wav]. *)
Definition tone_files (rate : Z) : Files := one_file "tone.wav" (impulse2 rate).

(** The conversions of the concrete runs, from [tone.wav] to [out.wav]. *)
Definition tone_run (L : Collaborators) (rate max_iterations : Z) (tolerance : Q)
  : outcome bool * Files * list Event :=
  @convert_to_432hz L "tone.wav" "out.wav" max_iterations tolerance (tone_files rate).

(** ** Further readings of a run, of a path and of a batch *)

(** The ratios of the speed changes of a trace, in order. *)
Definition applied_ratios (tr : list Event) : list Q :=
  flat_map (fun e => match e with Resample _ r _ => [r] | _ => [] end) tr.

(** [old in s]: does [old] occur in [s]? *)
Fixpoint contains (s old : string) : bool :=
  match s with
  | EmptyString => String.prefix old EmptyString
  | String _ s' => String.prefix old s || contains s' old
  end.

(** ** The batch *)

(** [s.endswith(suffix)]. *)
Definition endswith (s suffix : string) : bool :=
  (String.length suffix <=? String.length s)%nat
  && String.eqb (substring (String.length s - String.length suffix)
                           (String.length suffix) s) suffix.

(** Line 115. *)
Definition supported_formats : list string := [".wav"; ".mp3"; ".flac"; ".aac"]%string.

(** Lines 116-120, over the [(root, files)] pairs [os.walk] yields. *)
Definition audio_files (walk : list (string * list string)) : list string :=
  flat_map (fun entry =>
              map (Py.join (fst entry))
                  (List.filter (fun file => existsb (endswith file) supported_formats)
                               (snd entry)))
           walk.

(** What a batch does: the line of line 123, or one conversion with its
    paths, its trace and its verdict. *)
Inductive BatchEvent : Type :=
| NoAudioFiles
| Converted (file_path output_path : string) (events : list Event) (verdict : bool).

Section Batch.

Context {L : Collaborators}.

(** [os.path.relpath]. *)
Variable relpath : string -> string -> string.

Variables (input_folder output_folder : string).

(** Lines 126-131: the files one after the other; an exception that
    leaves a conversion would leave the loop. *)
Fixpoint convert_each (files : list string) (fs : Files)
  : outcome unit * Files * list BatchEvent :=
  match files with
  | [] => (Return tt, fs, [])
  | file_path :: rest =>
      let relative_path := relpath file_path input_folder in
      let output_path := batch_output_path output_folder relative_path in
      match convert_to_432hz file_path output_path 3 (1 # 2) fs with
      | (Return verdict, fs1, events) =>
          match convert_each rest fs1 with
          | (r, fs2, t) => (r, fs2, Converted file_path output_path events verdict :: t)
          end
      | (Raise, fs1, _) => (Raise, fs1, [])
      | (OutOfFuel, fs1, _) => (OutOfFuel, fs1, [])
      end
  end.

(** Lines 111-131. *)
Definition batch_convert (walk : list (string * list string)) (fs : Files)
  : outcome unit * Files * list BatchEvent :=
  match audio_files walk with
  | [] => (Return tt, fs, [NoAudioFiles])
  | files => convert_each files fs
  end.

End Batch.

(** The pairs of source and output path of the conversions of a batch. *)
Definition converted_paths (t : list BatchEvent) : list (string * string) :=
  flat_map (fun e => match e with
                     | Converted file_path output_path _ _ => [(file_path, output_path)]
                     | NoAudioFiles => []
                     end) t.

Definition batch_result (r : outcome unit * Files * list BatchEvent) : outcome unit :=
  fst (fst r).
Definition batch_files (r : outcome unit * Files * list BatchEvent) : Files :=
  snd (fst r).
Definition batch_trace (r : outcome unit * Files * list BatchEvent) : list BatchEvent :=
  snd r.

(** A line that is not among the lines listed in [H]. *)
Ltac no_such_line H :=
  cbn in H; repeat (destruct H as [H|H]; try discriminate); try contradiction.

(** * Proofs *)
(** ** Facts about the array operations *)

Section ArrayFacts.

Lemma multiply_fst_snd (bins : list (Q * Q)) :
  Np.multiply (map fst bins) (map snd bins) = map (fun b => fst b * snd b) bins.
Proof.
  induction bins as [|b bins IH]; simpl; [reflexivity|].
  now rewrite IH.
Qed.

Lemma bool_index_length {A : Type} (a : list A) (mask : list bool) (r : list A) :
  Np.bool_index a mask = Some r -> length a = length mask.
Proof.
  revert mask r.
  induction a as [|x a IH]; intros [|b mask] r H; simpl in H; try discriminate.
  - reflexivity.
  - destruct (Np.bool_index a mask) as [r'|] eqn:E; [|discriminate].
    simpl. f_equal. eapply IH. eassumption.
Qed.

Lemma bool_index_same_length {A : Type} (a : list A) (mask : list bool) :
  length a = length mask -> exists r, Np.bool_index a mask = Some r.
Proof.
  revert mask.
  induction a as [|x a IH]; intros [|b mask] H; simpl in H; try discriminate.
  - now exists [].
  - injection H as H. destruct (IH _ H) as [r Hr]. simpl. rewrite Hr. eauto.
Qed.

(** Selecting frequencies and values by one mask is filtering the
    bins (frequency, magnitude) on the frequency. *)
Lemma bool_index_filter {A : Type} (mag : A -> Q) (keep : Q -> bool)
      (freqs : list Q) (vals vals' : list A) (freqs' : list Q) :
  Np.bool_index vals (map keep freqs) = Some vals' ->
  Np.bool_index freqs (map keep freqs) = Some freqs' ->
  let band := List.filter (fun b => keep (fst b)) (combine freqs (map mag vals)) in
  freqs' = map fst band /\ map mag vals' = map snd band.
Proof.
  revert vals vals' freqs'.
  induction freqs as [|f freqs IH]; intros [|v vals] vals' freqs' Hv Hf;
    simpl in Hv, Hf; try discriminate.
  - injection Hv as <-. injection Hf as <-. now split.
  - destruct (Np.bool_index vals (map keep freqs)) as [rv|] eqn:Ev; [|discriminate].
    destruct (Np.bool_index freqs (map keep freqs)) as [rf|] eqn:Ef; [|discriminate].
    destruct (IH _ _ _ Ev eq_refl) as [IHf IHv].
    injection Hv as <-. injection Hf as <-.
    cbn zeta in *. cbn [combine map List.filter fst].
    destruct (keep f); cbn [map fst snd]; split; congruence.
Qed.


Lemma int_index_In {A : Type} (a : list A) (idx : list nat) (r : list A) :
  Np.int_index a idx = Some r -> forall x, In x r -> In x a.
Proof.
  revert r.
  induction idx as [|i idx IH]; intros r H x Hx; simpl in H.
  - injection H as <-. destruct Hx.
  - destruct (nth_error a i) as [y|] eqn:Ey; [|discriminate].
    destruct (Np.int_index a idx) as [r'|] eqn:Er; [|discriminate].
    injection H as <-.
    destruct Hx as [<-|Hx].
    + eapply nth_error_In. eassumption.
    + eapply IH; eauto.
Qed.

Lemma int_index_length {A : Type} (a : list A) (idx : list nat) (r : list A) :
  Np.int_index a idx = Some r -> length r = length idx.
Proof.
  revert r.
  induction idx as [|i idx IH]; intros r H; simpl in H.
  - now injection H as <-.
  - destruct (nth_error a i); [|discriminate].
    destruct (Np.int_index a idx) as [r'|]; [|discriminate].
    injection H as <-. simpl. f_equal. now apply IH.
Qed.

Lemma sum_all_zero (w : list Q) :
  Forall (fun x => x == 0) w -> Np.sum w == 0.
Proof.
  induction 1 as [|x w Hx _ IH]; simpl; [reflexivity|].
  rewrite Hx, IH. reflexivity.
Qed.

(** A weighted sum lies between the bounds of its terms, scaled by
    the sum of the weights. *)
Lemma weighted_sum_bounds (lo hi : Q) (bins : list (Q * Q)) :
  Forall (fun b => lo <= fst b /\ fst b <= hi /\ 0 <= snd b) bins ->
  0 <= Np.sum (map snd bins) /\
  lo * Np.sum (map snd bins) <= Np.sum (map (fun b => fst b * snd b) bins) /\
  Np.sum (map (fun b => fst b * snd b) bins) <= hi * Np.sum (map snd bins).
Proof.
  induction 1 as [|[f m] bins (Hlo & Hhi & Hm) _ (IH0 & IHlo & IHhi)]; simpl in *.
  - split; [|split]; lra.
  - assert (lo * m <= f * m) by (apply Qmult_le_compat_r; assumption).
    assert (f * m <= hi * m) by (apply Qmult_le_compat_r; assumption).
    split; [|split]; lra.
Qed.

End ArrayFacts.

(** ** The estimator *)

Section EstimatorFacts.

Context {L : Collaborators}.

Lemma in_band_iff (f : Q) : in_band f = true <-> 400 <= f /\ f <= 500.
Proof.
  unfold in_band. rewrite andb_true_iff, !Qle_bool_iff. reflexivity.
Qed.

Lemma capture_band_In (bins : list (Q * Q)) (b : Q * Q) :
  In b (capture_band bins) <-> In b bins /\ 400 <= fst b /\ fst b <= 500.
Proof.
  unfold capture_band. rewrite filter_In, in_band_iff. reflexivity.
Qed.

Lemma set_channels_mono_rate (audio : AudioSegment) :
  frame_rate (set_channels_mono audio) = frame_rate audio.
Proof.
  unfold set_channels_mono. now destruct (channels audio =? 1)%Z.
Qed.

(** What a report of [analyze_buffer] contains, in terms of the bins
    of the capture band. *)
Lemma analyze_buffer_report (samples : list Q) (rate : Z) (info : TuningInfo) :
  analyze_buffer samples rate = Return (Some info) ->
  let band := capture_band (fft_bins samples rate) in
  band <> [] /\
  Np.average (map fst band) (map snd band) = Some (dominant_freq info) /\
  Np.int_index (map fst band) (firstn 5 (argsort (map Qopp (map snd band))))
    = Some (harmonics info) /\
  sample_rate info = rate /\
  duration info = inject_Z (Z.of_nat (length samples)) / inject_Z rate.
Proof.
  unfold analyze_buffer, capture_band, fft_bins.
  destruct samples as [|x samples]; [discriminate|].
  set (buf := x :: samples).
  destruct (rate =? 0)%Z; [discriminate|].
  set (freqs := Np.rfftfreq (length buf) (1 / inject_Z rate)).
  destruct (Np.bool_index (rfft buf) (map in_band freqs)) as [vals|] eqn:Ev;
    [|discriminate].
  destruct (Np.bool_index freqs (map in_band freqs)) as [fs|] eqn:Ef;
    [|discriminate].
  destruct (bool_index_filter cabs in_band _ _ _ _ Ev Ef) as [-> Hvals].
  rewrite Hvals.
  set (band := List.filter _ _).
  destruct (0 <? length (map snd band))%nat eqn:Hlen; [|discriminate].
  destruct (Np.average _ _) as [dominant|]; [|discriminate].
  destruct (Np.int_index _ _) as [top|]; [|discriminate].
  intros [= <-]. cbn [dominant_freq harmonics sample_rate duration].
  split; [|repeat split].
  intros Hnil. rewrite Hnil in Hlen. discriminate.
Qed.

Lemma analyze_buffer_answers (samples : list Q) (rate : Z) :
  analyze_buffer samples rate <> OutOfFuel.
Proof.
  unfold analyze_buffer.
  repeat match goal with
         | |- context [match ?x with _ => _ end] => destruct x
         end; discriminate.
Qed.

(** The analysis of a file: it never raises, leaves the files as they
    are, and reports what [report_at] says; an error is printed only
    when there is no report. *)
Lemma analyze_tuning_run (path : string) (fs : Files) :
  exists err,
    analyze_tuning path fs
    = (Return (report_at fs path), fs, err ++ [Analyzed path (report_at fs path)]) /\
    (err = [] \/ err = [Print (ErrorAnalyzing path)] /\ report_at fs path = None).
Proof.
  unfold analyze_tuning, report_at, report_of, bind, try_except, from_file, lift,
    emit, ret, print, buffer_of.
  destruct (fs !! path) as [audio|]; cbn.
  - destruct (analyze_buffer _ _) as [r| |] eqn:E; cbn.
    + exists []. split; [reflexivity|now left].
    + exists [Print (ErrorAnalyzing path)]. split; [reflexivity|now right].
    + now apply analyze_buffer_answers in E.
  - exists [Print (ErrorAnalyzing path)]. split; [reflexivity|now right].
Qed.

(** With a modulus that is never negative, the bins of the capture
    band have a frequency in the band and a weight that is not
    negative. *)
Lemma capture_band_bounds (nonneg : forall z, 0 <= cabs z)
      (samples : list Q) (rate : Z) :
  Forall (fun b => 400 <= fst b /\ fst b <= 500 /\ 0 <= snd b)
         (capture_band (fft_bins samples rate)).
Proof.
  apply List.Forall_forall. intros [f m] Hb.
  apply capture_band_In in Hb. destruct Hb as (Hb & Hl & Hh).
  repeat split; try assumption.
  unfold fft_bins in Hb. apply in_combine_r in Hb.
  apply in_map_iff in Hb. destruct Hb as (z & <- & _). apply nonneg.
Qed.

(** A report means the weights of the band sum to something positive,
    and the dominant frequency is the weighted sum over it. *)
Lemma average_positive (nonneg : forall z, 0 <= cabs z)
      (samples : list Q) (rate : Z) (dominant : Q) :
  let band := capture_band (fft_bins samples rate) in
  Np.average (map fst band) (map snd band) = Some dominant ->
  0 < Np.sum (map snd band) /\
  dominant = Np.sum (map (fun b => fst b * snd b) band) / Np.sum (map snd band).
Proof.
  intros band Havg.
  unfold Np.average in Havg.
  destruct (Qeq_bool _ 0) eqn:Hz; [discriminate|].
  apply Qeq_bool_neq in Hz. injection Havg as <-.
  rewrite multiply_fst_snd. split; [|reflexivity].
  destruct (weighted_sum_bounds 400 500 band) as (H0 & _).
  { now apply capture_band_bounds. }
  apply Qle_lteq in H0. destruct H0 as [H0|H0]; [assumption|].
  now symmetry in H0.
Qed.

End EstimatorFacts.

Section EstimatorClaims.

Context {L : Collaborators}.

(** A report of [analyze_tuning] is the report of the buffer of the
    file at that path. *)
Lemma analyze_tuning_report (path : string) (fs : Files) (info : TuningInfo) :
  result_of (analyze_tuning path fs) = Return (Some info) ->
  exists audio,
    fs !! path = Some audio /\
    analyze_buffer (buffer_of audio) (frame_rate audio) = Return (Some info).
Proof.
  destruct (analyze_tuning_run path fs) as (tr & -> & _).
  unfold result_of, report_at, report_of. cbn [fst].
  destruct (fs !! path) as [audio|]; [|intros [=]].
  rewrite set_channels_mono_rate.
  destruct (analyze_buffer _ _) as [r| |] eqn:E; intros [= ->].
  now exists audio.
Qed.

(** C1: the dominant frequency of a report is the magnitude-weighted
    average [sum(freq_i * |mag_i|) / sum(|mag_i|)] over the FFT bins of
    the analysed buffer whose frequency lies in [400, 500], bounds
    included, and over no other bin. *)
Theorem dominant_freq_is_band_centroid
        (path : string) (fs : Files) (info : TuningInfo) :
  result_of (analyze_tuning path fs) = Return (Some info) ->
  exists audio,
    fs !! path = Some audio /\
    let bins := fft_bins (buffer_of audio) (frame_rate audio) in
    dominant_freq info = centroid (capture_band bins) /\
    forall b, In b (capture_band bins) <-> In b bins /\ 400 <= fst b /\ fst b <= 500.
Proof.
  intros H.
  destruct (analyze_tuning_report _ _ _ H) as (audio & Hfile & Hbuf).
  exists audio. split; [assumption|].
  apply analyze_buffer_report in Hbuf.
  destruct Hbuf as (_ & Havg & _).
  split; [|intros b; apply capture_band_In].
  unfold Np.average in Havg.
  destruct (Qeq_bool _ 0); [discriminate|].
  injection Havg as <-.
  unfold centroid. now rewrite multiply_fst_snd.
Qed.

(** C7: a buffer without energy in the capture band (no bin there, or
    only bins of magnitude zero) gets no report; and no report has a
    dominant frequency of zero. *)
Theorem no_band_energy_no_report
        (nonneg : forall z, 0 <= cabs z) (path : string) (fs : Files) :
  ((forall audio, fs !! path = Some audio ->
      Forall (fun b => snd b == 0)
             (capture_band (fft_bins (buffer_of audio) (frame_rate audio)))) ->
   result_of (analyze_tuning path fs) = Return None) /\
  (forall info, result_of (analyze_tuning path fs) = Return (Some info) ->
                ~ dominant_freq info == 0).
Proof.
  split.
  - intros Hsilent.
    destruct (analyze_tuning_run path fs) as (tr & Hrun & _).
    destruct (report_at fs path) as [info|] eqn:Hrep;
      [|now rewrite Hrun].
    exfalso.
    assert (Hres : result_of (analyze_tuning path fs) = Return (Some info))
      by now rewrite Hrun.
    destruct (analyze_tuning_report _ _ _ Hres) as (audio & Hfile & Hbuf).
    apply analyze_buffer_report in Hbuf.
    destruct Hbuf as (_ & Havg & _).
    unfold Np.average in Havg.
    destruct (Qeq_bool _ 0) eqn:Hz; [discriminate|].
    apply Qeq_bool_neq in Hz. apply Hz.
    apply sum_all_zero. rewrite List.Forall_map. now apply Hsilent.
  - intros info Hres Hzero.
    destruct (analyze_tuning_report _ _ _ Hres) as (audio & Hfile & Hbuf).
    apply analyze_buffer_report in Hbuf.
    destruct Hbuf as (_ & Havg & _).
    set (band := capture_band _) in *.
    destruct (average_positive nonneg _ _ _ Havg) as (HS & Hd).
    fold band in HS, Hd.
    destruct (weighted_sum_bounds 400 500 band) as (_ & Hlo & _).
    { now apply capture_band_bounds. }
    set (S := Np.sum (map snd band)) in *.
    set (W := Np.sum (map (fun b => fst b * snd b) band)) in *.
    rewrite Hd in Hzero.
    assert (HW : W == 0).
    { rewrite <- (Qmult_div_r W S) by lra.
      rewrite Hzero. ring. }
    lra.
Qed.

(** C10: in a report the dominant frequency lies in [400, 500], the
    harmonics are at most five frequencies of [400, 500], and the
    duration is the length of the buffer over the sample rate. *)
Theorem report_within_band
        (nonneg : forall z, 0 <= cabs z)
        (path : string) (fs : Files) (info : TuningInfo) :
  result_of (analyze_tuning path fs) = Return (Some info) ->
  (400 <= dominant_freq info /\ dominant_freq info <= 500) /\
  (length (harmonics info) <= 5)%nat /\
  Forall (fun h => 400 <= h /\ h <= 500) (harmonics info) /\
  exists audio,
    fs !! path = Some audio /\
    sample_rate info = frame_rate audio /\
    duration info
    = inject_Z (Z.of_nat (length (buffer_of audio))) / inject_Z (sample_rate info).
Proof.
  intros Hres.
  destruct (analyze_tuning_report _ _ _ Hres) as (audio & Hfile & Hbuf).
  apply analyze_buffer_report in Hbuf.
  set (band := capture_band _) in Hbuf.
  destruct Hbuf as (_ & Havg & Htop & Hrate & Hdur).
  split; [|split; [|split]].
  - destruct (average_positive nonneg _ _ _ Havg) as (HS & ->).
    fold band in HS |- *.
    destruct (weighted_sum_bounds 400 500 band) as (_ & Hlo & Hhi).
    { now apply capture_band_bounds. }
    split.
    + apply Qle_shift_div_l; assumption.
    + apply Qle_shift_div_r; assumption.
  - apply int_index_length in Htop. rewrite Htop.
    rewrite length_firstn. lia.
  - apply List.Forall_forall. intros h Hh.
    eapply int_index_In in Hh; [|eassumption].
    apply in_map_iff in Hh. destruct Hh as (b & <- & Hb).
    apply capture_band_In in Hb. tauto.
  - exists audio. rewrite Hrate. auto.
Qed.

End EstimatorClaims.

(** ** Index sorts *)

Section SortFacts.



Section Ordered.

Variables (before : Q -> Q -> bool) (a : list Q).
Hypothesis before_le : forall x y, before x y = true -> x <= y.
Hypothesis after_le : forall x y, before x y = false -> y <= x.



End Ordered.






End SortFacts.

Section HarmonicsClaim.

Context {L : Collaborators}.


End HarmonicsClaim.

(** ** One turn of the correction loop *)

Section LoopFacts.

Context {L : Collaborators}.
Variables (output_path : string) (max_iterations : Z) (tolerance : Q).

Lemma set_frame_rate_answers (audio : AudioSegment) (rate : Z) :
  set_frame_rate audio rate <> OutOfFuel.
Proof.
  unfold set_frame_rate.
  destruct (rate =? frame_rate audio)%Z; [discriminate|].
  destruct (ratecv _ _ _ _); discriminate.
Qed.

Lemma report_at_insert (fs : Files) (path : string) (audio : AudioSegment) :
  report_at (<[path := audio]> fs) path = report_of audio.
Proof. unfold report_at. now rewrite lookup_insert_eq. Qed.

(** Lines 101-104: the failure line, and the export when the output
    path can be written. *)
Lemma save_last_attempt_run (audio : AudioSegment) (dominant : Q) (fs : Files) :
  save_last_attempt output_path max_iterations audio dominant fs
  = if writable output_path
    then (Return false, <[output_path := audio]> fs,
          [Print (VerificationFailed max_iterations dominant);
           Export output_path audio])
    else (Raise, fs, [Print (VerificationFailed max_iterations dominant)]).
Proof.
  unfold save_last_attempt, bind, print, emit, export, ret.
  destruct (writable output_path); reflexivity.
Qed.

(** The loop condition fails: lines 101-104. *)
Lemma loop_exit (fuel : nat) (iteration : Z) (audio : AudioSegment)
      (dominant : Q) (fs : Files) :
  (iteration <? max_iterations)%Z = false ->
  correction_loop output_path max_iterations tolerance (S fuel) iteration audio dominant fs
  = save_last_attempt output_path max_iterations audio dominant fs.
Proof. intros H. cbn -[save_last_attempt]. rewrite H. reflexivity. Qed.

(** The speed change raises: the exception leaves the loop. *)
Lemma loop_raise (fuel : nat) (iteration : Z) (audio : AudioSegment)
      (dominant : Q) (fs : Files) :
  (iteration <? max_iterations)%Z = true ->
  set_frame_rate (spawned audio (432 / dominant)) (frame_rate audio) = Raise ->
  correction_loop output_path max_iterations tolerance (S fuel) iteration audio dominant fs
  = (Raise, fs, [Print (ApplyingSpeedRatio (iteration + 1) (432 / dominant))]).
Proof.
  intros H Hset. cbn -[analyze_tuning save_last_attempt]. rewrite H.
  unfold bind, print, emit, change_speed, lift.
  rewrite Hset. reflexivity.
Qed.

(** The scratch path cannot be written: the export of line 82 raises,
    and the exception leaves the loop. *)
Lemma loop_unsaved (fuel : nat) (iteration : Z) (audio audio' : AudioSegment)
      (dominant : Q) (fs : Files) :
  (iteration <? max_iterations)%Z = true ->
  set_frame_rate (spawned audio (432 / dominant)) (frame_rate audio) = Return audio' ->
  writable (temp_output_path output_path iteration) = false ->
  correction_loop output_path max_iterations tolerance (S fuel) iteration audio dominant fs
  = (Raise, fs, [Print (ApplyingSpeedRatio (iteration + 1) (432 / dominant));
                 Resample audio (432 / dominant) audio']).
Proof.
  intros H Hset Hw. cbn -[analyze_tuning save_last_attempt]. rewrite H.
  unfold bind at 1 2 3 4. unfold print at 1, emit at 1. unfold change_speed, lift.
  rewrite Hset.
  unfold bind at 1 2. unfold emit at 1, ret at 1, export at 1.
  rewrite Hw. reflexivity.
Qed.

(** The speed change succeeds and the candidate is saved: it is
    analysed, and the loop aborts, succeeds or goes on. *)
Lemma loop_iteration (fuel : nat) (iteration : Z) (audio audio' : AudioSegment)
      (dominant : Q) (fs : Files) :
  (iteration <? max_iterations)%Z = true ->
  set_frame_rate (spawned audio (432 / dominant)) (frame_rate audio) = Return audio' ->
  writable (temp_output_path output_path iteration) = true ->
  let temp := temp_output_path output_path iteration in
  let fs1 := <[temp := audio']> fs in
  exists err,
    (err = [] \/ err = [Print (ErrorAnalyzing temp)] /\ report_of audio' = None) /\
    let pre := Print (ApplyingSpeedRatio (iteration + 1) (432 / dominant))
               :: Resample audio (432 / dominant) audio'
               :: Export temp audio'
               :: err ++ [Analyzed temp (report_of audio')] in
    correction_loop output_path max_iterations tolerance (S fuel) iteration audio dominant fs
    = match report_of audio' with
      | None =>
          match save_last_attempt output_path max_iterations audio' dominant fs1 with
          | (r, fs2, t2) =>
              (r, fs2, pre ++ Print (CouldNotReanalyze (iteration + 1)) :: t2)
          end
      | Some info =>
          if Qle_bool (Qabs (dominant_freq info - 432)) tolerance then
            (Return true, <[output_path := audio']> (delete temp fs1),
             pre ++ [Print (PostAdjustment (dominant_freq info));
                     Print (VerificationSuccessful output_path (dominant_freq info));
                     Rename temp output_path])
          else
            match correction_loop output_path max_iterations tolerance fuel (iteration + 1) audio' (dominant_freq info) fs1 with
            | (r, fs2, t2) =>
                (r, fs2, pre ++ Print (PostAdjustment (dominant_freq info)) :: t2)
            end
      end.
Proof.
  intros H Hset Hw temp fs1.
  destruct (analyze_tuning_run temp fs1) as (err & Hrun & Herr).
  assert (Hrep : report_at fs1 temp = report_of audio')
    by apply report_at_insert.
  rewrite Hrep in Hrun, Herr.
  exists err. split; [exact Herr|].
  cbn -[analyze_tuning save_last_attempt Qle_bool Qabs Qminus]. rewrite H.
  unfold bind at 1 2 3 4. unfold print at 1, emit at 1. unfold change_speed, lift.
  rewrite Hset.
  unfold bind at 1 2. unfold emit at 1, ret at 1, export at 1.
  rewrite Hw. fold temp. fold fs1. rewrite Hrun.
  destruct (report_of audio') as [info|].
  - unfold bind at 1, print at 1, emit at 1.
    destruct (Qle_bool _ tolerance).
    + unfold bind, print, emit, rename, ret.
      unfold fs1 at 1. rewrite lookup_insert_eq. cbn [app].
      rewrite <- !app_assoc. reflexivity.
    + destruct (correction_loop output_path max_iterations tolerance fuel _ _ _ fs1) as [[r fs2] t2]. cbn [app].
      rewrite <- !app_assoc. reflexivity.
  - unfold bind at 1, print at 1, emit at 1.
    destruct (save_last_attempt _ _ _ _ fs1) as [[r fs2] t2]. cbn [app].
    rewrite <- !app_assoc. reflexivity.
Qed.

(** Induction on the turns of the loop: a property of its runs that
    holds of the eight ways a turn can end holds of every run with fuel
    for the turns that are left.  In particular such a run ends. *)
Section LoopInduction.

Variable P : Z -> AudioSegment -> Q -> Files ->
             outcome bool * Files * list Event -> Prop.

Hypothesis exhausted : forall iteration audio dominant fs,
  (max_iterations <= iteration)%Z ->
  writable output_path = true ->
  P iteration audio dominant fs
    (Return false, <[output_path := audio]> fs,
     [Print (VerificationFailed max_iterations dominant); Export output_path audio]).

Hypothesis exhausted_unwritable : forall iteration audio dominant fs,
  (max_iterations <= iteration)%Z ->
  writable output_path = false ->
  P iteration audio dominant fs
    (Raise, fs, [Print (VerificationFailed max_iterations dominant)]).

Hypothesis raised : forall iteration audio dominant fs,
  (iteration < max_iterations)%Z ->
  set_frame_rate (spawned audio (432 / dominant)) (frame_rate audio) = Raise ->
  P iteration audio dominant fs
    (Raise, fs, [Print (ApplyingSpeedRatio (iteration + 1) (432 / dominant))]).

Hypothesis unsaved : forall iteration audio audio' dominant fs,
  (iteration < max_iterations)%Z ->
  set_frame_rate (spawned audio (432 / dominant)) (frame_rate audio) = Return audio' ->
  writable (temp_output_path output_path iteration) = false ->
  P iteration audio dominant fs
    (Raise, fs, [Print (ApplyingSpeedRatio (iteration + 1) (432 / dominant));
                 Resample audio (432 / dominant) audio']).

Hypothesis aborted : forall iteration audio audio' dominant fs err,
  (iteration < max_iterations)%Z ->
  set_frame_rate (spawned audio (432 / dominant)) (frame_rate audio) = Return audio' ->
  writable (temp_output_path output_path iteration) = true ->
  err = [] \/ err = [Print (ErrorAnalyzing (temp_output_path output_path iteration))] ->
  report_of audio' = None ->
  writable output_path = true ->
  P iteration audio dominant fs
    (Return false,
     <[output_path := audio']> (<[temp_output_path output_path iteration := audio']> fs),
     turn_trace output_path iteration audio audio' dominant err None
     ++ [Print (CouldNotReanalyze (iteration + 1));
         Print (VerificationFailed max_iterations dominant);
         Export output_path audio']).

Hypothesis aborted_unwritable : forall iteration audio audio' dominant fs err,
  (iteration < max_iterations)%Z ->
  set_frame_rate (spawned audio (432 / dominant)) (frame_rate audio) = Return audio' ->
  writable (temp_output_path output_path iteration) = true ->
  err = [] \/ err = [Print (ErrorAnalyzing (temp_output_path output_path iteration))] ->
  report_of audio' = None ->
  writable output_path = false ->
  P iteration audio dominant fs
    (Raise,
     <[temp_output_path output_path iteration := audio']> fs,
     turn_trace output_path iteration audio audio' dominant err None
     ++ [Print (CouldNotReanalyze (iteration + 1));
         Print (VerificationFailed max_iterations dominant)]).

Hypothesis converged : forall iteration audio audio' dominant fs info,
  (iteration < max_iterations)%Z ->
  set_frame_rate (spawned audio (432 / dominant)) (frame_rate audio) = Return audio' ->
  writable (temp_output_path output_path iteration) = true ->
  report_of audio' = Some info ->
  Qle_bool (Qabs (dominant_freq info - 432)) tolerance = true ->
  P iteration audio dominant fs
    (Return true,
     <[output_path := audio']>
       (delete (temp_output_path output_path iteration)
               (<[temp_output_path output_path iteration := audio']> fs)),
     turn_trace output_path iteration audio audio' dominant [] (Some info)
     ++ [Print (PostAdjustment (dominant_freq info));
         Print (VerificationSuccessful output_path (dominant_freq info));
         Rename (temp_output_path output_path iteration) output_path]).

Hypothesis continued : forall iteration audio audio' dominant fs info r fs2 t2,
  (iteration < max_iterations)%Z ->
  set_frame_rate (spawned audio (432 / dominant)) (frame_rate audio) = Return audio' ->
  writable (temp_output_path output_path iteration) = true ->
  report_of audio' = Some info ->
  Qle_bool (Qabs (dominant_freq info - 432)) tolerance = false ->
  P (iteration + 1) audio' (dominant_freq info)
    (<[temp_output_path output_path iteration := audio']> fs) (r, fs2, t2) ->
  P iteration audio dominant fs
    (r, fs2,
     turn_trace output_path iteration audio audio' dominant [] (Some info)
     ++ Print (PostAdjustment (dominant_freq info)) :: t2).

Lemma loop_run_ind (fuel : nat) :
  forall iteration audio dominant fs,
    (Z.to_nat (max_iterations - iteration) < fuel)%nat ->
    P iteration audio dominant fs (correction_loop output_path max_iterations tolerance fuel iteration audio dominant fs).
Proof using exhausted exhausted_unwritable raised unsaved aborted
            aborted_unwritable converged continued.
  induction fuel as [|fuel IH]; intros iteration audio dominant fs Hfuel; [lia|].
  destruct (iteration <? max_iterations)%Z eqn:Hlt.
  - apply Z.ltb_lt in Hlt as Hlt'.
    destruct (set_frame_rate (spawned audio (432 / dominant)) (frame_rate audio))
      as [audio'| |] eqn:Hset.
    + destruct (writable (temp_output_path output_path iteration)) eqn:Hw.
      2:{ rewrite (loop_unsaved fuel _ _ _ _ _ Hlt Hset Hw). now apply unsaved. }
      destruct (loop_iteration fuel iteration audio audio' dominant fs Hlt Hset Hw)
        as (err & Herr & Hrun).
      cbv zeta in Hrun. rewrite Hrun.
      destruct (report_of audio') as [info|] eqn:Hrep.
      * assert (err = []) as -> by (destruct Herr as [?|[_ ?]]; [assumption|discriminate]).
        destruct (Qle_bool _ tolerance) eqn:Htol.
        -- now apply converged.
        -- destruct (correction_loop output_path max_iterations tolerance fuel _ _ _ _) as [[r fs2] t2] eqn:Hrec.
           apply continued; try assumption.
           rewrite <- Hrec. apply IH. lia.
      * rewrite save_last_attempt_run.
        destruct (writable output_path) eqn:Hout.
        -- apply aborted; try assumption; tauto.
        -- apply aborted_unwritable; try assumption; tauto.
    + rewrite (loop_raise fuel _ _ _ _ Hlt Hset). now apply raised.
    + now apply set_frame_rate_answers in Hset.
  - rewrite (loop_exit fuel _ _ _ _ Hlt), save_last_attempt_run.
    apply Z.ltb_ge in Hlt.
    destruct (writable output_path) eqn:Hout.
    + now apply exhausted.
    + now apply exhausted_unwritable.
Qed.

End LoopInduction.

End LoopFacts.

(** ** Traces *)

Section TraceFacts.

Lemma resampled_app (t1 t2 : list Event) :
  resampled (t1 ++ t2) = resampled t1 ++ resampled t2.
Proof. apply flat_map_app. Qed.

Lemma iterations_app (t1 t2 : list Event) :
  iterations (t1 ++ t2) = (iterations t1 + iterations t2)%nat.
Proof. unfold iterations. now rewrite List.filter_app, length_app. Qed.

Lemma ratios_follow_app (measured : option Q) (t1 t2 : list Event) :
  ratios_follow measured (t1 ++ t2) <->
  ratios_follow measured t1 /\ ratios_follow (measured_after measured t1) t2.
Proof.
  revert measured.
  induction t1 as [|e t1 IH]; intros measured; simpl; [tauto|].
  destruct e as [[]|p [info|]| | |]; rewrite ?IH; tauto.
Qed.

Lemma last_cons_default {A : Type} (x d : A) (l : list A) :
  List.last (x :: l) d = List.last l x.
Proof.
  revert x d. induction l as [|y l IH]; intros x d; [reflexivity|].
  change (List.last (x :: y :: l) d) with (List.last (y :: l) d).
  rewrite IH. symmetry. apply IH.
Qed.



End TraceFacts.

(** ** Every run of the loop *)

Section LoopProperties.

Context {L : Collaborators}.
Variables (output_path : string) (max_iterations : Z) (tolerance : Q).

(** With fuel for the turns left the loop answers, it begins no more
    turns than are left, and each turn applies the ratio for the
    frequency measured last. *)
Lemma loop_bounded (fuel : nat) (iteration : Z) (audio : AudioSegment)
      (dominant : Q) (fs : Files) :
  (Z.to_nat (max_iterations - iteration) < fuel)%nat ->
  let run := correction_loop output_path max_iterations tolerance fuel iteration audio dominant fs in
  result_of run <> OutOfFuel /\
  (length (resampled (trace_of run)) <= iterations (trace_of run))%nat /\
  (iterations (trace_of run) <= Z.to_nat (max_iterations - iteration))%nat /\
  ratios_follow (Some dominant) (trace_of run).
Proof.
  revert iteration audio dominant fs.
  apply (loop_run_ind output_path max_iterations tolerance
           (fun i a d fs run =>
              result_of run <> OutOfFuel /\
              (length (resampled (trace_of run)) <= iterations (trace_of run))%nat /\
              (iterations (trace_of run) <= Z.to_nat (max_iterations - i))%nat /\
              ratios_follow (Some d) (trace_of run))).
  - intros i a d fs Hi _. cbn. repeat split; try discriminate; lia.
  - intros i a d fs Hi _. cbn. repeat split; try discriminate; lia.
  - intros i a d fs Hi _. cbn. repeat split; try discriminate; lia.
  - intros i a a' d fs Hi _ _. cbn. repeat split; try discriminate; lia.
  - intros i a a' d fs err Hi _ _ [->| ->] _ _; cbn;
      repeat split; try discriminate; lia.
  - intros i a a' d fs err Hi _ _ [->| ->] _ _; cbn;
      repeat split; try discriminate; lia.
  - intros i a a' d fs info Hi _ _ _ _. cbn.
    repeat split; try discriminate; lia.
  - intros i a a' d fs info r fs2 t2 Hi _ _ _ _ (Hr & Hlen & Hit & Hratio).
    unfold trace_of, result_of in *. cbn [fst snd] in *.
    rewrite resampled_app, !iterations_app, length_app.
    change (resampled (turn_trace output_path i a a' d [] (Some info))) with [a'].
    change (iterations (turn_trace output_path i a a' d [] (Some info))) with 1%nat.
    change (iterations (Print (PostAdjustment (dominant_freq info)) :: t2))
      with (iterations t2).
    change (resampled (Print (PostAdjustment (dominant_freq info)) :: t2))
      with (resampled t2).
    cbn [length].
    split; [assumption|split; [lia|split; [lia|]]].
    apply ratios_follow_app. cbn. tauto.
Qed.

End LoopProperties.

Section LoopAnalyses.

Context {L : Collaborators}.
Variables (output_path : string) (max_iterations : Z) (tolerance : Q).


End LoopAnalyses.

Section LoopVerdict.

Context {L : Collaborators}.
Variables (output_path : string) (max_iterations : Z) (tolerance : Q).





End LoopVerdict.

(** ** A whole conversion *)

Section ConvertFacts.

Context {L : Collaborators}.
Variables (file_path output_path : string) (max_iterations : Z) (tolerance : Q).

Lemma bind_Return {A B : Type} (m : M A) (k : A -> M B)
      (fs fs1 : Files) (a : A) (t1 : list Event) :
  m fs = (Return a, fs1, t1) ->
  bind m k fs = match k a fs1 with (r, fs2, t2) => (r, fs2, t1 ++ t2) end.
Proof. intros H. unfold bind. now rewrite H. Qed.

Lemma bind_print {B : Type} (m : Msg) (k : unit -> M B) (fs : Files) :
  bind (print m) k fs = match k tt fs with (r, fs2, t2) => (r, fs2, Print m :: t2) end.
Proof. reflexivity. Qed.

Lemma report_at_file (fs : Files) (info : TuningInfo) :
  report_at fs file_path = Some info ->
  exists src, fs !! file_path = Some src /\ report_of src = Some info.
Proof.
  unfold report_at. destruct (fs !! file_path) as [src|]; [|discriminate].
  intros H. now exists src.
Qed.

(** The three ways a conversion goes: no report, a report below 432,
    or the loop. *)
Lemma convert_run (fs : Files) :
  let run := convert_to_432hz file_path output_path max_iterations tolerance fs in
  match report_at fs file_path with
  | None =>
      exists err,
        (err = [] \/ err = [Print (ErrorAnalyzing file_path)]) /\
        run = (Return false, fs,
               err ++ [Analyzed file_path None; Print (CouldNotAnalyze file_path)])
  | Some info =>
      if Qle_bool 432 (dominant_freq info) then
        exists src,
          fs !! file_path = Some src /\
          let inner := correction_loop output_path max_iterations tolerance
                                       (loop_fuel max_iterations) 0 src
                                       (dominant_freq info) fs in
          run = match result_of inner with
                | Raise =>
                    (Return false, files_of inner,
                     opening_trace file_path info
                     ++ trace_of inner ++ [Print (ErrorConverting file_path)])
                | r => (r, files_of inner, opening_trace file_path info ++ trace_of inner)
                end
      else
        run = (Return false, fs,
               opening_trace file_path info ++ [Print (AlreadyBelow file_path)])
  end.
Proof.
  intros run. subst run.
  destruct (analyze_tuning_run file_path fs) as (err & Hrun & Herr).
  unfold convert_to_432hz.
  generalize (loop_fuel max_iterations). intros fuel.
  unfold try_except.
  rewrite (bind_Return _ _ _ _ _ _ Hrun).
  destruct (report_at fs file_path) as [info|] eqn:Hrep.
  - assert (err = []) as -> by (destruct Herr as [?|[_ ?]]; [assumption|discriminate]).
    rewrite !bind_print.
    destruct (Qle_bool 432 (dominant_freq info)); cbn [negb].
    + destruct (report_at_file _ _ Hrep) as (src & Hsrc & _).
      exists src. split; [assumption|].
      assert (Hfile : from_file file_path fs = (Return src, fs, []))
        by (unfold from_file; now rewrite Hsrc).
      rewrite (bind_Return _ _ _ _ _ _ Hfile).
      destruct (correction_loop _ _ _ _ _ _ _ _) as [[r fs2] t2].
      unfold result_of, files_of, trace_of. cbn [fst snd].
      destruct r; reflexivity.
    + rewrite bind_print. reflexivity.
  - exists err. split; [tauto|]. rewrite bind_print. cbn.
    now rewrite <- app_assoc.
Qed.

End ConvertFacts.

Section ConvertBounds.

Context {L : Collaborators}.
Variables (file_path output_path : string) (max_iterations : Z) (tolerance : Q).

Lemma analyze_tuning_result (path : string) (fs : Files) :
  result_of (analyze_tuning path fs) = Return (report_at fs path).
Proof. destruct (analyze_tuning_run path fs) as (err & -> & _). reflexivity. Qed.

Lemma loop_fuel_enough :
  (Z.to_nat (max_iterations - 0) < loop_fuel max_iterations)%nat.
Proof. unfold loop_fuel. rewrite Z.sub_0_r. lia. Qed.

(** A conversion ends with a verdict, within the iterations allowed,
    each with the ratio for the frequency measured last. *)
Lemma convert_bounded (fs : Files) :
  let run := convert_to_432hz file_path output_path max_iterations tolerance fs in
  (exists verdict, result_of run = Return verdict) /\
  (length (resampled (trace_of run)) <= iterations (trace_of run))%nat /\
  (Z.of_nat (iterations (trace_of run)) <= Z.max 0 max_iterations)%Z /\
  ratios_follow None (trace_of run).
Proof.
  intros run. subst run.
  pose proof (convert_run file_path output_path max_iterations tolerance fs) as Hrun.
  cbv zeta in Hrun.
  destruct (report_at fs file_path) as [info|].
  - destruct (Qle_bool 432 (dominant_freq info)).
    + destruct Hrun as (src & _ & ->).
      pose proof (loop_bounded output_path max_iterations tolerance
                    _ 0 src (dominant_freq info) fs loop_fuel_enough) as Hloop.
      cbv zeta in Hloop.
      destruct (correction_loop _ _ _ _ _ _ _ _) as [[r fs2] t2].
      unfold result_of, trace_of, files_of in *. cbn [fst snd] in *.
      destruct Hloop as (Hr & Hlen & Hit & Hratio).
      rewrite Z.sub_0_r in Hit.
      assert (Hopen : forall t,
                resampled (opening_trace file_path info ++ t) = resampled t /\
                iterations (opening_trace file_path info ++ t) = iterations t /\
                (ratios_follow (Some (dominant_freq info)) t ->
                 ratios_follow None (opening_trace file_path info ++ t)))
        by (intros t; repeat split; cbn; tauto).
      destruct r as [b| |]; cbv beta iota; cbn [fst snd].
      * destruct (Hopen t2) as (-> & -> & Hfollow). cbn [fst snd].
        split; [now exists b|]. split; [assumption|]. split; [lia|auto].
      * destruct (Hopen (t2 ++ [Print (ErrorConverting file_path)]))
          as (-> & -> & Hfollow). cbn [fst snd].
        rewrite resampled_app, iterations_app, length_app. cbn.
        split; [now exists false|]. split; [lia|]. split; [lia|].
        apply Hfollow. apply ratios_follow_app. split; [assumption|].
        destruct (measured_after _ _); cbn; tauto.
      * now contradiction Hr.
    + rewrite Hrun. cbn. split; [now exists false|]. repeat split; lia.
  - destruct Hrun as (err & Herr & ->).
    destruct Herr as [-> | ->]; cbn;
      (split; [now exists false|]); repeat split; lia.
Qed.

End ConvertBounds.

Section ConvertViews.

Context {L : Collaborators}.
Variables (file_path output_path : string) (max_iterations : Z) (tolerance : Q).


(** A conversion either never enters the loop, and then changes
    nothing, or is the opening followed by a run of the loop, with
    one more line when the loop raises. *)
Lemma convert_view (fs : Files) :
  (files_of (convert_to_432hz file_path output_path max_iterations tolerance fs) = fs /\
   result_of (convert_to_432hz file_path output_path max_iterations tolerance fs) = Return false /\
   resampled (trace_of (convert_to_432hz file_path output_path max_iterations tolerance fs)) = [] /\
   Forall (fun e => is_write e = false) (trace_of (convert_to_432hz file_path output_path max_iterations tolerance fs)) /\
   (forall m f, ~ In (Print (VerificationFailed m f)) (trace_of (convert_to_432hz file_path output_path max_iterations tolerance fs))) /\
   (forall f, ~ In (Print (VerificationSuccessful output_path f))
                (trace_of (convert_to_432hz file_path output_path max_iterations tolerance fs))) /\
   (In (Print (AlreadyBelow file_path)) (trace_of (convert_to_432hz file_path output_path max_iterations tolerance fs)) <->
    exists info, report_at fs file_path = Some info /\
                 Qle_bool 432 (dominant_freq info) = false)) \/
  (exists src info tail,
      fs !! file_path = Some src /\
      report_at fs file_path = Some info /\
      Qle_bool 432 (dominant_freq info) = true /\
      let inner := correction_loop output_path max_iterations tolerance
                                   (loop_fuel max_iterations) 0 src
                                   (dominant_freq info) fs in
      trace_of (convert_to_432hz file_path output_path max_iterations tolerance fs) = opening_trace file_path info ++ trace_of inner ++ tail /\
      files_of (convert_to_432hz file_path output_path max_iterations tolerance fs) = files_of inner /\
      (result_of inner = Raise /\ tail = [Print (ErrorConverting file_path)] /\
       result_of (convert_to_432hz file_path output_path max_iterations tolerance fs) = Return false
       \/
       result_of inner = result_of (convert_to_432hz file_path output_path max_iterations tolerance fs) /\ tail = [] /\
       result_of inner <> Raise)).
Proof.
  pose proof (convert_run file_path output_path max_iterations tolerance fs) as Hrun.
  cbv zeta in Hrun.
  destruct (report_at fs file_path) as [info|] eqn:Hrep.
  - destruct (Qle_bool 432 (dominant_freq info)) eqn:Hd.
    + right. destruct Hrun as (src & Hsrc & Hrun).
      destruct (result_of (correction_loop _ _ _ _ _ _ _ _)) eqn:Hr.
      * exists src, info, []. cbv zeta. rewrite Hrun, app_nil_r.
        repeat split; try assumption. right.
        rewrite Hr. repeat split. discriminate.
      * exists src, info, [Print (ErrorConverting file_path)]. cbv zeta. rewrite Hrun.
        repeat split; try assumption. left. rewrite Hr. repeat split.
      * exists src, info, []. cbv zeta. rewrite Hrun, app_nil_r.
        repeat split; try assumption. right.
        rewrite Hr. repeat split. discriminate.
    + left. rewrite Hrun. unfold files_of, result_of, trace_of. cbn [fst snd].
      split; [reflexivity|]. split; [reflexivity|]. split; [reflexivity|].
      split; [repeat constructor|].
      split; [|split].
      * intros m f H. cbn in H.
        repeat (destruct H as [H|H]; try discriminate; try contradiction).
      * intros f H. cbn in H.
        repeat (destruct H as [H|H]; try discriminate; try contradiction).
      * split; [intros _; now exists info|].
        intros _. cbn. tauto.
  - left. destruct Hrun as (err & Herr & ->).
    unfold files_of, result_of, trace_of. cbn [fst snd].
    split; [reflexivity|]. split; [reflexivity|].
    split; [destruct Herr as [-> | ->]; reflexivity|].
    split; [destruct Herr as [-> | ->]; repeat constructor|].
    split; [|split].
    + intros m f H. destruct Herr as [-> | ->]; cbn in H;
        repeat (destruct H as [H|H]; try discriminate; try contradiction).
    + intros f H. destruct Herr as [-> | ->]; cbn in H;
        repeat (destruct H as [H|H]; try discriminate; try contradiction).
    + split.
      * intros H. destruct Herr as [-> | ->]; cbn in H;
          repeat (destruct H as [H|H]; try discriminate; try contradiction).
      * intros (info & H & _). discriminate.
Qed.


(** The failure line of a conversion is that of its loop. *)
Lemma failure_line_inside (fs : Files) (src : AudioSegment) (info : TuningInfo)
      (tail : list Event) (m : Z) (f : Q) :
  (tail = [Print (ErrorConverting file_path)] \/ tail = []) ->
  let inner := correction_loop output_path max_iterations tolerance
                               (loop_fuel max_iterations) 0 src
                               (dominant_freq info) fs in
  In (Print (VerificationFailed m f))
     (opening_trace file_path info ++ trace_of inner ++ tail) ->
  In (Print (VerificationFailed m f)) (trace_of inner).
Proof.
  intros Htail inner Hin.
  apply in_app_or in Hin. destruct Hin as [Hin|Hin]; [no_such_line Hin|].
  apply in_app_or in Hin. destruct Hin as [Hin|Hin]; [assumption|].
  destruct Htail as [-> | ->]; no_such_line Hin.
Qed.




End ConvertViews.

Section ConvertOutcomes.

Context {L : Collaborators}.
Variables (file_path output_path : string) (max_iterations : Z) (tolerance : Q).


(** C3, as far as the code goes: a source whose initial dominant
    frequency is strictly below 432 Hz is not converted: the verdict is
    [False], the skip line is printed, there is no speed change, no
    export and no rename, and the files are as before. *)
Theorem below_432_not_applied (fs : Files) (info : TuningInfo) :
  result_of (analyze_tuning file_path fs) = Return (Some info) ->
  dominant_freq info < 432 ->
  result_of (convert_to_432hz file_path output_path max_iterations tolerance fs) = Return false /\
  trace_of (convert_to_432hz file_path output_path max_iterations tolerance fs)
  = opening_trace file_path info ++ [Print (AlreadyBelow file_path)] /\
  resampled (trace_of (convert_to_432hz file_path output_path max_iterations tolerance fs)) = [] /\
  Forall (fun e => is_write e = false) (trace_of (convert_to_432hz file_path output_path max_iterations tolerance fs)) /\
  files_of (convert_to_432hz file_path output_path max_iterations tolerance fs) = fs.
Proof.
  intros Hrep Hlow.
  rewrite analyze_tuning_result in Hrep. injection Hrep as Hrep.
  pose proof (convert_run file_path output_path max_iterations tolerance fs) as Hrun.
  cbv zeta in Hrun. rewrite Hrep in Hrun.
  destruct (Qle_bool 432 (dominant_freq info)) eqn:Hd.
  { apply Qle_bool_iff in Hd. lra. }
  rewrite Hrun. unfold result_of, trace_of, files_of. cbn [fst snd].
  repeat split. repeat constructor.
Qed.




End ConvertOutcomes.

(** ** The stable ranking *)

Section StableRanking.

Lemma rank_insert_perm (b : Q * Q) (ranked : list (Q * Q)) :
  Permutation (rank_insert b ranked) (b :: ranked).
Proof.
  induction ranked as [|c rest IH]; simpl; [reflexivity|].
  destruct (Qle_bool _ _); [reflexivity|].
  rewrite IH. apply perm_swap.
Qed.

(** [rank_stable] rearranges the bins, *)
Lemma rank_stable_perm (bins : list (Q * Q)) :
  Permutation (rank_stable bins) bins.
Proof.
  induction bins as [|b bins IH]; [reflexivity|].
  cbn [rank_stable fold_right]. rewrite rank_insert_perm.
  now constructor.
Qed.

(** by descending magnitude, *)
Lemma rank_stable_sorted (bins : list (Q * Q)) :
  StronglySorted (fun b c => snd c <= snd b) (rank_stable bins).
Proof.
  induction bins as [|b bins IH]; [constructor|].
  cbn [rank_stable fold_right]. fold (rank_stable bins).
  induction IH as [|c rest Hrest IHrest Hc]; simpl.
  - repeat constructor.
  - destruct (Qle_bool (snd c) (snd b)) eqn:E.
    + apply Qle_bool_iff in E.
      constructor; [now constructor|].
      constructor; [exact E|].
      eapply List.Forall_impl; [|exact Hc]. intros x Hx. simpl in Hx. lra.
    + assert (Hlt : snd b <= snd c).
      { destruct (Qlt_le_dec (snd b) (snd c)) as [H|H]; [lra|].
        apply Qle_bool_iff in H. congruence. }
      constructor; [assumption|].
      eapply Permutation_Forall; [symmetry; apply rank_insert_perm|].
      now constructor.
Qed.

(** and keeps the bins of one magnitude in their order. *)
Lemma rank_stable_keeps_order (m : Q) (bins : list (Q * Q)) :
  List.filter (fun b => Qeq_bool (snd b) m) (rank_stable bins)
  = List.filter (fun b => Qeq_bool (snd b) m) bins.
Proof.
  induction bins as [|b bins IH]; [reflexivity|].
  cbn [rank_stable fold_right]. fold (rank_stable bins).
  cbn [List.filter]. rewrite <- IH. clear IH.
  induction (rank_stable bins) as [|c rest IHrest]; [reflexivity|].
  cbn [rank_insert].
  destruct (Qle_bool (snd c) (snd b)) eqn:E; [reflexivity|].
  cbn [List.filter]. rewrite IHrest.
  destruct (Qeq_bool (snd b) m) eqn:Eb; [|reflexivity].
  destruct (Qeq_bool (snd c) m) eqn:Ec; [|reflexivity].
  apply Qeq_bool_iff in Eb, Ec.
  assert (Qle_bool (snd c) (snd b) = true)
    by (apply Qle_bool_iff; rewrite Eb, Ec; apply Qle_refl).
  congruence.
Qed.

End StableRanking.

(** ** Concrete runs *)

(** C1 on the two-sample impulse at 864 frames per second, whose only
    bin in the band is the one at 432 Hz. *)
Lemma dominant_freq_is_band_centroid_witness :
  result_of (@analyze_tuning lab "tone.wav" (tone_files 864))
  = Return (Some (impulse2_info 864)) /\
  dominant_freq (impulse2_info 864)
  = @centroid (capture_band (@fft_bins lab (@buffer_of lab (impulse2 864)) 864)).
Proof.
  split; [vm_compute; reflexivity|].
  destruct (@dominant_freq_is_band_centroid lab "tone.wav" (tone_files 864)
              (impulse2_info 864))
    as (audio & Hfile & Hc & _); [vm_compute; reflexivity|].
  vm_compute in Hfile. injection Hfile as <-. exact Hc.
Defined.

(** C7 on two silent samples: the bin at 432 Hz has magnitude zero. *)
Lemma no_band_energy_no_report_witness :
  (forall z : Q, 0 <= Qabs z) /\
  Forall (fun b => snd b == 0)
         (capture_band (@fft_bins lab (@buffer_of lab (silence2 864)) 864)) /\
  result_of (@analyze_tuning lab "tone.wav" (one_file "tone.wav" (silence2 864)))
  = Return None.
Proof.
  split; [exact Qabs_nonneg|].
  split; [vm_compute; repeat constructor|].
  apply (proj1 (@no_band_energy_no_report lab Qabs_nonneg "tone.wav"
                  (one_file "tone.wav" (silence2 864)))).
  intros audio H. vm_compute in H. injection H as <-.
  vm_compute. repeat constructor.
Defined.

(** C10 on the impulse at 864 frames per second. *)
Lemma report_within_band_witness :
  (forall z : Q, 0 <= Qabs z) /\
  result_of (@analyze_tuning lab "tone.wav" (tone_files 864))
  = Return (Some (impulse2_info 864)) /\
  (400 <= dominant_freq (impulse2_info 864) /\
   dominant_freq (impulse2_info 864) <= 500) /\
  (length (harmonics (impulse2_info 864)) <= 5)%nat /\
  Forall (fun h => 400 <= h /\ h <= 500) (harmonics (impulse2_info 864)).
Proof.
  split; [exact Qabs_nonneg|].
  split; [vm_compute; reflexivity|].
  destruct (@report_within_band lab Qabs_nonneg "tone.wav" (tone_files 864)
              (impulse2_info 864))
    as (Hd & Hlen & Hall & _); [vm_compute; reflexivity|].
  split; [exact Hd|]. split; [exact Hlen|exact Hall].
Defined.



(** C3 (amended) on the impulse at 800 frames per second: 400 Hz. *)
Lemma below_432_not_applied_witness :
  result_of (@analyze_tuning lab "tone.wav" (tone_files 800))
  = Return (Some (impulse2_info 800)) /\
  dominant_freq (impulse2_info 800) < 432 /\
  result_of (tone_run lab 800 3 (1 # 2)) = Return false /\
  resampled (trace_of (tone_run lab 800 3 (1 # 2))) = [] /\
  files_of (tone_run lab 800 3 (1 # 2)) = tone_files 800.
Proof.
  split; [vm_compute; reflexivity|].
  split; [reflexivity|].
  destruct (@below_432_not_applied lab "tone.wav" "out.wav" 3 (1 # 2) (tone_files 800)
              (impulse2_info 800))
    as (Hr & _ & Hre & _ & Hfs); [vm_compute; reflexivity|reflexivity|].
  split; [exact Hr|]. split; [exact Hre|exact Hfs].
Defined.

(** C3 as stated fails at exactly 432 Hz: the impulse at 864 frames per
    second measures 432 Hz, which is not above the target, and is
    converted all the same: one speed change, the scratch file written
    and renamed, verdict [True]. *)
Lemma at_432_is_converted :
  result_of (@analyze_tuning lab "tone.wav" (tone_files 864))
  = Return (Some (impulse2_info 864)) /\
  dominant_freq (impulse2_info 864) <= 432 /\
  result_of (tone_run lab 864 3 (1 # 2)) = Return true /\
  resampled (trace_of (tone_run lab 864 3 (1 # 2))) = [impulse2 864] /\
  In (Export "out_temp_0.wav" (impulse2 864)) (trace_of (tone_run lab 864 3 (1 # 2))) /\
  In (Rename "out_temp_0.wav" "out.wav") (trace_of (tone_run lab 864 3 (1 # 2))) /\
  files_of (tone_run lab 864 3 (1 # 2)) !! "out.wav" = Some (impulse2 864) /\
  tone_files 864 !! "out.wav" = None.
Proof.
  split; [vm_compute; reflexivity|].
  split; [apply Qle_bool_imp_le; reflexivity|].
  split; [vm_compute; reflexivity|].
  split; [vm_compute; reflexivity|].
  split; [vm_compute; tauto|].
  split; [vm_compute; tauto|].
  split; vm_compute; reflexivity.
Qed.







(** C9, where the code leaves the convention: the scratch path is made
    by replacing every [.wav] of the output path.  For the batch output
    of [kick.wav.mp3] that changes the middle of the name too, and for
    an output path without [.wav] it changes nothing, so the scratch
    file is the output file. *)
Theorem temp_path_replaces_every_wav :
  batch_output_path "out" "kick.wav.mp3" = "out/kick.wav_432Hz.wav"%string /\
  temp_output_path "out/kick.wav_432Hz.wav" 0
  = "out/kick_temp_0.wav_432Hz_temp_0.wav"%string /\
  described_temp_path "out/kick.wav_432Hz.wav" 0
  = "out/kick.wav_432Hz_temp_0.wav"%string /\
  temp_output_path "out.mp3" 0 = "out.mp3"%string /\
  described_temp_path "out.mp3" 0 = "out_temp_0.wav"%string.
Proof. repeat split; vm_compute; reflexivity. Qed.

(** ** Further properties of the script *)

Section ConvertFurther.

Context {L : Collaborators}.
Variables (file_path output_path : string) (max_iterations : Z) (tolerance : Q).

(** X1: [analyze_tuning] contains its errors: it always returns, it leaves
    the files as they are, and for a path with no file it returns
    [None] after printing the error line of line 42. *)
Theorem analyze_tuning_contains_errors (path : string) (fs : Files) :
  (exists report, result_of (analyze_tuning path fs) = Return report) /\
  files_of (analyze_tuning path fs) = fs /\
  (fs !! path = None ->
   result_of (analyze_tuning path fs) = Return None /\
   In (Print (ErrorAnalyzing path)) (trace_of (analyze_tuning path fs))).
Proof.
  destruct (analyze_tuning_run path fs) as (err & Hrun & Herr).
  split; [exists (report_at fs path); now rewrite Hrun|].
  split; [now rewrite Hrun|].
  intros Hnone.
  unfold analyze_tuning, try_except, bind, from_file, print, emit, ret.
  rewrite Hnone. cbn. split; [reflexivity|tauto].
Qed.

(** X2: a source without report is not converted: the verdict is [False],
    line 54 is printed, nothing is resampled or written, and the files
    are as before. *)
Theorem no_report_no_conversion (fs : Files) :
  result_of (analyze_tuning file_path fs) = Return None ->
  let run := convert_to_432hz file_path output_path max_iterations tolerance fs in
  result_of run = Return false /\
  In (Print (CouldNotAnalyze file_path)) (trace_of run) /\
  resampled (trace_of run) = [] /\
  Forall (fun e => is_write e = false) (trace_of run) /\
  files_of run = fs.
Proof.
  intros Hrep run. subst run.
  rewrite analyze_tuning_result in Hrep. injection Hrep as Hrep.
  pose proof (convert_run file_path output_path max_iterations tolerance fs) as Hrun.
  cbv zeta in Hrun. rewrite Hrep in Hrun.
  destruct Hrun as (err & Herr & ->).
  unfold result_of, trace_of, files_of. cbn [fst snd].
  split; [reflexivity|].
  split; [apply in_or_app; right; cbn; tauto|].
  split; [destruct Herr as [-> | ->]; reflexivity|].
  split; [destruct Herr as [-> | ->]; repeat constructor|reflexivity].
Qed.

(** The loop writes to the output path and to the scratch paths of its
    iterations only. *)
Lemma loop_writes_confined (fuel : nat) (iteration : Z) (audio : AudioSegment)
      (dominant : Q) (fs : Files) :
  (Z.to_nat (max_iterations - iteration) < fuel)%nat ->
  forall p,
    p <> output_path ->
    (forall i, p <> temp_output_path output_path i) ->
    files_of (correction_loop output_path max_iterations tolerance
                              fuel iteration audio dominant fs) !! p
    = fs !! p.
Proof.
  revert iteration audio dominant fs.
  apply (loop_run_ind output_path max_iterations tolerance
           (fun i a d fs run =>
              forall p,
                p <> output_path ->
                (forall i, p <> temp_output_path output_path i) ->
                files_of run !! p = fs !! p));
    unfold files_of; cbn [fst snd].
  - intros i a d fs _ _ p Hout _. now rewrite lookup_insert_ne by congruence.
  - reflexivity.
  - reflexivity.
  - reflexivity.
  - intros i a a' d fs err _ _ _ _ _ _ p Hout Htemp.
    rewrite !lookup_insert_ne; [reflexivity| |congruence].
    intros H. now apply (Htemp i).
  - intros i a a' d fs err _ _ _ _ _ _ p Hout Htemp.
    rewrite lookup_insert_ne; [reflexivity|].
    intros H. now apply (Htemp i).
  - intros i a a' d fs info _ _ _ _ _ p Hout Htemp.
    rewrite lookup_insert_ne by congruence.
    rewrite lookup_delete_ne by (intros H; now apply (Htemp i)).
    rewrite lookup_insert_ne; [reflexivity|].
    intros H. now apply (Htemp i).
  - intros i a a' d fs info r fs2 t2 _ _ _ _ _ IH p Hout Htemp.
    rewrite (IH p Hout Htemp).
    rewrite lookup_insert_ne; [reflexivity|].
    intros H. now apply (Htemp i).
Qed.

(** X3: a conversion touches no file but the output path and the scratch
    paths: every other path, the source's included, holds afterwards
    what it held before. *)
Theorem convert_writes_confined (fs : Files) (p : string) :
  p <> output_path ->
  (forall i, p <> temp_output_path output_path i) ->
  files_of (convert_to_432hz file_path output_path max_iterations tolerance fs) !! p
  = fs !! p.
Proof.
  intros Hout Htemp.
  destruct (convert_view file_path output_path max_iterations tolerance fs)
    as [(-> & _)|(src & info & tail & _ & _ & _ & Hview)]; [reflexivity|].
  cbv zeta in Hview. destruct Hview as (_ & -> & _).
  apply loop_writes_confined; [apply loop_fuel_enough|assumption..].
Qed.

(** Every candidate of the loop has the frame rate and the channel
    count of the segment the loop started from. *)
Lemma loop_keeps_format (fuel : nat) (iteration : Z) (audio : AudioSegment)
      (dominant : Q) (fs : Files) :
  (Z.to_nat (max_iterations - iteration) < fuel)%nat ->
  Forall (fun a' => frame_rate a' = frame_rate audio /\ channels a' = channels audio)
         (resampled (trace_of (correction_loop output_path max_iterations tolerance
                                               fuel iteration audio dominant fs))).
Proof.
  assert (Hset : forall a a' d,
             set_frame_rate (spawned a d) (frame_rate a) = Return a' ->
             frame_rate a' = frame_rate a /\ channels a' = channels a).
  { intros a a' d. unfold set_frame_rate.
    destruct (frame_rate a =? frame_rate (spawned a d))%Z eqn:E.
    - intros [= <-]. apply Z.eqb_eq in E. now split.
    - destruct (ratecv _ _ _ _); [|discriminate]. intros [= <-]. now split. }
  revert iteration audio dominant fs.
  apply (loop_run_ind output_path max_iterations tolerance
           (fun i a d fs run =>
              Forall (fun a' => frame_rate a' = frame_rate a /\ channels a' = channels a)
                     (resampled (trace_of run))));
    unfold trace_of; cbn [fst snd].
  - intros. constructor.
  - intros. constructor.
  - intros. constructor.
  - intros i a a' d fs _ Hs _.
    repeat constructor; now apply (Hset a a' (432 / d)).
  - intros i a a' d fs err _ Hs _ Herr _ _.
    destruct Herr as [-> | ->]; repeat constructor; now apply (Hset a a' (432 / d)).
  - intros i a a' d fs err _ Hs _ Herr _ _.
    destruct Herr as [-> | ->]; repeat constructor; now apply (Hset a a' (432 / d)).
  - intros i a a' d fs info _ Hs _ _ _.
    repeat constructor; now apply (Hset a a' (432 / d)).
  - intros i a a' d fs info r fs2 t2 _ Hs _ _ _ IH.
    rewrite resampled_app.
    change (resampled (turn_trace output_path i a a' d [] (Some info))) with [a'].
    change (resampled (Print (PostAdjustment (dominant_freq info)) :: t2))
      with (resampled t2).
    destruct (Hset a a' (432 / d) Hs) as [Hf Hc].
    constructor; [now split|].
    eapply List.Forall_impl; [|exact IH].
    intros x [Hx1 Hx2]. split; congruence.
Qed.

(** X5: every segment a conversion produces by a speed change has the
    frame rate and the channel count of the source file: the speed
    change sets the rate back (line 78). *)
Theorem candidates_keep_format (fs : Files) (src : AudioSegment) :
  fs !! file_path = Some src ->
  Forall (fun a' => frame_rate a' = frame_rate src /\ channels a' = channels src)
         (resampled (trace_of (convert_to_432hz file_path output_path max_iterations
                                                tolerance fs))).
Proof.
  intros Hsrc.
  destruct (convert_view file_path output_path max_iterations tolerance fs)
    as [(_ & _ & -> & _)|(src' & info & tail & Hsrc' & _ & _ & Hview)]; [constructor|].
  cbv zeta in Hview. destruct Hview as (-> & _ & Htail).
  assert (src' = src) as -> by congruence.
  rewrite !resampled_app.
  change (resampled (opening_trace file_path info)) with (@nil AudioSegment).
  assert (resampled tail = []) as ->
    by (destruct Htail as [(_ & -> & _)|(_ & -> & _)]; reflexivity).
  rewrite app_nil_r. cbn [app].
  apply loop_keeps_format, loop_fuel_enough.
Qed.

End ConvertFurther.

Section RatioBounds.

Context {L : Collaborators}.
Variables (file_path output_path : string) (max_iterations : Z) (tolerance : Q).

Lemma applied_ratios_app (t1 t2 : list Event) :
  applied_ratios (t1 ++ t2) = applied_ratios t1 ++ applied_ratios t2.
Proof. apply flat_map_app. Qed.

(** With a modulus that is never negative the dominant frequency of a
    report lies in the capture band. *)
Lemma report_of_in_band (nonneg : forall z, 0 <= cabs z)
      (audio : AudioSegment) (info : TuningInfo) :
  report_of audio = Some info ->
  400 <= dominant_freq info /\ dominant_freq info <= 500.
Proof.
  unfold report_of.
  destruct (analyze_buffer _ _) as [r| |] eqn:Hbuf; try discriminate.
  intros ->.
  apply analyze_buffer_report in Hbuf. cbv zeta in Hbuf.
  set (band := capture_band _) in Hbuf.
  destruct Hbuf as (_ & Havg & _).
  destruct (average_positive nonneg _ _ _ Havg) as (HS & ->).
  fold band in HS |- *.
  destruct (weighted_sum_bounds 400 500 band) as (_ & Hlo & Hhi).
  { now apply capture_band_bounds. }
  split.
  - apply Qle_shift_div_l; assumption.
  - apply Qle_shift_div_r; assumption.
Qed.

Lemma ratio_bounds (d : Q) :
  400 <= d -> d <= 500 -> (108 # 125) <= 432 / d /\ 432 / d <= (27 # 25).
Proof.
  intros Hlo Hhi. assert (0 < d) by lra. split.
  - apply Qle_shift_div_l; [assumption|]. lra.
  - apply Qle_shift_div_r; [assumption|]. lra.
Qed.

Lemma loop_ratios_bounded (nonneg : forall z, 0 <= cabs z)
      (fuel : nat) (iteration : Z) (audio : AudioSegment)
      (dominant : Q) (fs : Files) :
  (Z.to_nat (max_iterations - iteration) < fuel)%nat ->
  400 <= dominant -> dominant <= 500 ->
  Forall (fun r => (108 # 125) <= r /\ r <= (27 # 25))
         (applied_ratios (trace_of (correction_loop output_path max_iterations tolerance
                                                    fuel iteration audio dominant fs))) /\
  (432 <= dominant ->
   match applied_ratios (trace_of (correction_loop output_path max_iterations tolerance
                                                   fuel iteration audio dominant fs)) with
   | r :: _ => r <= 1
   | [] => True
   end).
Proof.
  revert iteration audio dominant fs.
  apply (loop_run_ind output_path max_iterations tolerance
           (fun i a d fs run =>
              400 <= d -> d <= 500 ->
              Forall (fun r => (108 # 125) <= r /\ r <= (27 # 25))
                     (applied_ratios (trace_of run)) /\
              (432 <= d ->
               match applied_ratios (trace_of run) with
               | r :: _ => r <= 1
               | [] => True
               end)));
    unfold trace_of; cbn [fst snd].
  - intros. split; [constructor|]. intros _. exact I.
  - intros. split; [constructor|]. intros _. exact I.
  - intros. split; [constructor|]. intros _. exact I.
  - intros i a a' d fs _ _ _ Hlo Hhi.
    change (applied_ratios _) with [432 / d].
    split; [repeat constructor; now apply ratio_bounds|].
    intros Hd. apply Qle_shift_div_r; lra.
  - intros i a a' d fs err _ _ _ Herr _ _ Hlo Hhi.
    assert (applied_ratios
              (turn_trace output_path i a a' d err None
               ++ [Print (CouldNotReanalyze (i + 1));
                   Print (VerificationFailed max_iterations d);
                   Export output_path a']) = [432 / d]) as ->
      by (destruct Herr as [-> | ->]; reflexivity).
    split; [repeat constructor; now apply ratio_bounds|].
    intros Hd. apply Qle_shift_div_r; lra.
  - intros i a a' d fs err _ _ _ Herr _ _ Hlo Hhi.
    assert (applied_ratios
              (turn_trace output_path i a a' d err None
               ++ [Print (CouldNotReanalyze (i + 1));
                   Print (VerificationFailed max_iterations d)]) = [432 / d]) as ->
      by (destruct Herr as [-> | ->]; reflexivity).
    split; [repeat constructor; now apply ratio_bounds|].
    intros Hd. apply Qle_shift_div_r; lra.
  - intros i a a' d fs info _ _ _ _ _ Hlo Hhi.
    change (applied_ratios _) with [432 / d].
    split; [repeat constructor; now apply ratio_bounds|].
    intros Hd. apply Qle_shift_div_r; lra.
  - intros i a a' d fs info r fs2 t2 _ _ _ Hrep _ IH Hlo Hhi.
    rewrite applied_ratios_app.
    change (applied_ratios (turn_trace output_path i a a' d [] (Some info)))
      with [432 / d].
    change (applied_ratios (Print (PostAdjustment (dominant_freq info)) :: t2))
      with (applied_ratios t2).
    destruct (report_of_in_band nonneg _ _ Hrep) as [Hlo' Hhi'].
    destruct (IH Hlo' Hhi') as [IHall _].
    split.
    + constructor; [now apply ratio_bounds|exact IHall].
    + intros Hd. cbn [app]. apply Qle_shift_div_r; lra.
Qed.

(** X4: with a modulus that is never negative, every speed ratio a
    conversion applies lies between 432/500 and 432/400, and the first
    one is at most 1: the first speed change never raises the pitch. *)
Theorem speed_ratios_bounded (nonneg : forall z, 0 <= cabs z) (fs : Files) :
  let ratios := applied_ratios
                  (trace_of (convert_to_432hz file_path output_path max_iterations
                                              tolerance fs)) in
  Forall (fun r => (108 # 125) <= r /\ r <= (27 # 25)) ratios /\
  match ratios with
  | r :: _ => r <= 1
  | [] => True
  end.
Proof.
  cbv zeta.
  destruct (convert_view file_path output_path max_iterations tolerance fs)
    as [(_ & _ & Hre & _)|(src & info & tail & Hsrc & Hrep & Hd & Hview)].
  - assert (applied_ratios
              (trace_of (convert_to_432hz file_path output_path max_iterations
                                          tolerance fs)) = []) as ->.
    { revert Hre. generalize (trace_of (convert_to_432hz file_path output_path
                                          max_iterations tolerance fs)).
      induction l as [|e l IH]; [reflexivity|].
      destruct e; cbn; try exact IH. discriminate. }
    split; [constructor|exact I].
  - cbv zeta in Hview. destruct Hview as (-> & _ & Htail).
    rewrite !applied_ratios_app.
    change (applied_ratios (opening_trace file_path info)) with (@nil Q).
    assert (applied_ratios tail = []) as ->
      by (destruct Htail as [(_ & -> & _)|(_ & -> & _)]; reflexivity).
    rewrite app_nil_r. cbn [app].
    destruct (report_at_file file_path fs info Hrep) as (src' & Hsrc' & Hrepo).
    destruct (report_of_in_band nonneg _ _ Hrepo) as [Hlo Hhi].
    apply Qle_bool_iff in Hd.
    destruct (loop_ratios_bounded nonneg (loop_fuel max_iterations) 0 src
                (dominant_freq info) fs (loop_fuel_enough max_iterations) Hlo Hhi)
      as [Hall Hfirst].
    split; [exact Hall|exact (Hfirst Hd)].
Qed.

End RatioBounds.

Section ScratchLeft.

Context {L : Collaborators}.
Variables (file_path output_path : string) (max_iterations : Z) (tolerance : Q).

Lemma loop_scratch_left (fuel : nat) (iteration : Z) (audio : AudioSegment)
      (dominant : Q) (fs : Files) :
  (Z.to_nat (max_iterations - iteration) < fuel)%nat ->
  let run := correction_loop output_path max_iterations tolerance
                             fuel iteration audio dominant fs in
  forall m f,
    In (Print (VerificationFailed m f)) (trace_of run) ->
    (resampled (trace_of run) = [] ->
     (forall p, p <> output_path -> files_of run !! p = fs !! p) /\
     iterations (trace_of run) = 0%nat) /\
    (resampled (trace_of run) <> [] ->
     temp_output_path output_path (iteration + Z.of_nat (iterations (trace_of run)) - 1)
     <> output_path ->
     files_of run
       !! temp_output_path output_path (iteration + Z.of_nat (iterations (trace_of run)) - 1)
     = Some (List.last (resampled (trace_of run)) audio)).
Proof.
  revert iteration audio dominant fs.
  apply (loop_run_ind output_path max_iterations tolerance
           (fun i a d fs run =>
              forall m f,
                In (Print (VerificationFailed m f)) (trace_of run) ->
                (resampled (trace_of run) = [] ->
                 (forall p, p <> output_path -> files_of run !! p = fs !! p) /\
                 iterations (trace_of run) = 0%nat) /\
                (resampled (trace_of run) <> [] ->
                 temp_output_path output_path
                   (i + Z.of_nat (iterations (trace_of run)) - 1) <> output_path ->
                 files_of run
                   !! temp_output_path output_path
                        (i + Z.of_nat (iterations (trace_of run)) - 1)
                 = Some (List.last (resampled (trace_of run)) a))));
    unfold trace_of, files_of; cbn [fst snd].
  - intros i a d fs _ _ m f _. split; [|intros H; now contradiction H].
    intros _. split; [|reflexivity].
    intros p Hp. now rewrite lookup_insert_ne by congruence.
  - intros i a d fs _ _ m f _. split; [now split|]. intros H. now contradiction H.
  - intros i a d fs _ _ m f [H|[]]. discriminate.
  - intros i a a' d fs _ _ _ m f H. no_such_line H.
  - intros i a a' d fs err _ _ _ Herr _ _ m f _.
    assert (Hre : resampled
                    (turn_trace output_path i a a' d err None
                     ++ [Print (CouldNotReanalyze (i + 1));
                         Print (VerificationFailed max_iterations d);
                         Export output_path a']) = [a'])
      by (destruct Herr as [-> | ->]; reflexivity).
    assert (Hit : iterations
                    (turn_trace output_path i a a' d err None
                     ++ [Print (CouldNotReanalyze (i + 1));
                         Print (VerificationFailed max_iterations d);
                         Export output_path a']) = 1%nat)
      by (destruct Herr as [-> | ->]; reflexivity).
    rewrite Hre, Hit. split; [discriminate|].
    intros _. replace (i + Z.of_nat 1 - 1)%Z with i by lia.
    intros Hne. rewrite lookup_insert_ne by congruence.
    apply lookup_insert_eq.
  - intros i a a' d fs err _ _ _ Herr _ _ m f _.
    assert (Hre : resampled
                    (turn_trace output_path i a a' d err None
                     ++ [Print (CouldNotReanalyze (i + 1));
                         Print (VerificationFailed max_iterations d)]) = [a'])
      by (destruct Herr as [-> | ->]; reflexivity).
    assert (Hit : iterations
                    (turn_trace output_path i a a' d err None
                     ++ [Print (CouldNotReanalyze (i + 1));
                         Print (VerificationFailed max_iterations d)]) = 1%nat)
      by (destruct Herr as [-> | ->]; reflexivity).
    rewrite Hre, Hit. split; [discriminate|].
    intros _. replace (i + Z.of_nat 1 - 1)%Z with i by lia.
    intros _. apply lookup_insert_eq.
  - intros i a a' d fs info _ _ _ _ _ m f H. no_such_line H.
  - intros i a a' d fs info r fs2 t2 _ _ _ _ _ IH m f H.
    apply in_app_or in H. destruct H as [H|[H|H]]; [|discriminate|].
    { no_such_line H. }
    destruct (IH m f H) as [IHnil IHsome].
    rewrite resampled_app, iterations_app.
    change (resampled (turn_trace output_path i a a' d [] (Some info))) with [a'].
    change (iterations (turn_trace output_path i a a' d [] (Some info))) with 1%nat.
    change (resampled (Print (PostAdjustment (dominant_freq info)) :: t2))
      with (resampled t2).
    change (iterations (Print (PostAdjustment (dominant_freq info)) :: t2))
      with (iterations t2).
    cbn [app]. split; [discriminate|].
    intros _. rewrite last_cons_default.
    destruct (resampled t2) as [|x l] eqn:Hre.
    + destruct (IHnil eq_refl) as [Hsame ->].
      replace (i + Z.of_nat (1 + 0) - 1)%Z with i by lia.
      intros Hne. rewrite (Hsame _ Hne).
      apply lookup_insert_eq.
    + replace (i + Z.of_nat (1 + iterations t2) - 1)%Z
        with (i + 1 + Z.of_nat (iterations t2) - 1)%Z by lia.
      apply IHsome. discriminate.
Qed.

(** X6: scratch files are not cleaned up on failure: after a conversion
    that failed with at least one speed change made, the scratch path
    of the last iteration (when it is not the output path itself) still
    holds the last candidate. *)
Theorem scratch_left_after_failure (fs : Files) (src : AudioSegment) (m : Z) (f : Q) :
  let run := convert_to_432hz file_path output_path max_iterations tolerance fs in
  let last_scratch :=
    temp_output_path output_path (Z.of_nat (iterations (trace_of run)) - 1) in
  fs !! file_path = Some src ->
  In (Print (VerificationFailed m f)) (trace_of run) ->
  resampled (trace_of run) <> [] ->
  last_scratch <> output_path ->
  files_of run !! last_scratch = Some (List.last (resampled (trace_of run)) src).
Proof.
  cbv zeta. intros Hsrc Hin Hre Hne.
  destruct (convert_view file_path output_path max_iterations tolerance fs)
    as [(_ & _ & Hnone & _)|(src' & info & tail & Hsrc' & _ & _ & Hview)];
    [contradiction|].
  cbv zeta in Hview. destruct Hview as (Htrace & Hfiles & Htail).
  assert (src' = src) as -> by congruence.
  pose proof (loop_scratch_left (loop_fuel max_iterations) 0 src (dominant_freq info) fs
                (loop_fuel_enough max_iterations) m f) as Hloop.
  cbv zeta in Hloop.
  assert (Htl : tail = [Print (ErrorConverting file_path)] \/ tail = [])
    by (destruct Htail as [(_ & -> & _)|(_ & -> & _)]; tauto).
  rewrite Hfiles.
  rewrite Htrace in Hin, Hre, Hne |- *.
  apply failure_line_inside in Hin; [|exact Htl].
  destruct (Hloop Hin) as [_ Hsome].
  assert (Hshift : resampled (opening_trace file_path info
                              ++ trace_of (correction_loop output_path max_iterations
                                             tolerance (loop_fuel max_iterations) 0 src
                                             (dominant_freq info) fs) ++ tail)
                   = resampled (trace_of (correction_loop output_path max_iterations
                                            tolerance (loop_fuel max_iterations) 0 src
                                            (dominant_freq info) fs)) /\
                   iterations (opening_trace file_path info
                               ++ trace_of (correction_loop output_path max_iterations
                                              tolerance (loop_fuel max_iterations) 0 src
                                              (dominant_freq info) fs) ++ tail)
                   = iterations (trace_of (correction_loop output_path max_iterations
                                             tolerance (loop_fuel max_iterations) 0 src
                                             (dominant_freq info) fs))).
  { rewrite !resampled_app, !iterations_app.
    destruct Htl as [-> | ->]; cbn; rewrite ?app_nil_r; split; lia || reflexivity. }
  destruct Hshift as [Hsh1 Hsh2].
  rewrite Hsh1, Hsh2 in *.
  apply Hsome; assumption.
Qed.

End ScratchLeft.

Section Nyquist.

Context {L : Collaborators}.

Lemma bool_index_none_kept {A : Type} (a : list A) (mask : list bool) (r : list A) :
  Forall (fun b => b = false) mask ->
  Np.bool_index a mask = Some r -> r = [].
Proof.
  revert mask r.
  induction a as [|x a IH]; intros [|b mask] r Hall H; simpl in H; try discriminate.
  - now injection H as <-.
  - inversion Hall as [|? ? Hb Hrest]; subst.
    destruct (Np.bool_index a mask) as [r'|] eqn:E; [|discriminate].
    injection H as <-. now apply (IH mask).
Qed.

(** Below 800 frames per second no bin reaches 400 Hz. *)
Lemma low_rate_out_of_band (n : nat) (rate : Z) :
  (0 < n)%nat -> (rate < 800)%Z -> rate <> 0%Z ->
  Forall (fun b => b = false) (map in_band (Np.rfftfreq n (1 / inject_Z rate))).
Proof.
  intros Hn Hrate Hnz.
  unfold Np.rfftfreq. rewrite map_map. apply List.Forall_map.
  apply List.Forall_forall. intros i Hi.
  apply in_seq in Hi.
  assert (Hi2 : (2 * i <= n)%nat).
  { pose proof (Nat.div_mod_eq n 2). pose proof (Nat.mod_upper_bound n 2). lia. }
  unfold in_band. apply andb_false_iff. left.
  destruct (Qle_bool 400 _) eqn:E; [|reflexivity]. exfalso.
  apply Qle_bool_iff in E.
  set (I := inject_Z (Z.of_nat i)) in *.
  set (N := inject_Z (Z.of_nat n)) in *.
  set (R := inject_Z rate) in *.
  assert (HI : 0 <= I) by (unfold I; change 0 with (inject_Z 0); rewrite <- Zle_Qle; lia).
  assert (HN : 0 < N) by (unfold N; change 0 with (inject_Z 0); rewrite <- Zlt_Qlt; lia).
  assert (H2 : 2 * I <= N).
  { unfold I, N. change 2 with (inject_Z 2). rewrite <- inject_Z_mult, <- Zle_Qle. lia. }
  assert (HR : R < 800) by (unfold R; change 800 with (inject_Z 800); now rewrite <- Zlt_Qlt).
  assert (HRnz : ~ R == 0).
  { unfold R. change 0 with (inject_Z 0). rewrite inject_Z_injective. assumption. }
  clearbody I N R.
  assert (Hfreq : I * (1 / (N * (1 / R))) == I * R / N) by (field; split; [lra|assumption]).
  rewrite Hfreq in E.
  assert (H400 : 400 * N <= I * R).
  { assert (Hback : I * R / N * N == I * R) by (field; lra).
    rewrite <- Hback. apply Qmult_le_compat_r; [exact E|lra]. }
  destruct (Qlt_le_dec 0 R) as [Hpos|Hneg].
  - assert (Hhalf : I <= N * (1 # 2)) by lra.
    assert (I * R <= (N * (1 # 2)) * R) by (apply Qmult_le_compat_r; lra).
    assert ((N * (1 # 2)) * R < 400 * N).
    { assert (N * R < N * 800) by (apply Qmult_lt_l; assumption).
      lra. }
    lra.
  - assert (I * R <= 0).
    { assert (I * R <= I * 0) by (rewrite !(Qmult_comm I); apply Qmult_le_compat_r; assumption).
      lra. }
    lra.
Qed.

(** X7: a file sampled below 800 frames per second never gets a report:
    its spectrum ends below 400 Hz. *)
Theorem low_rate_no_report (path : string) (fs : Files) (audio : AudioSegment) :
  fs !! path = Some audio ->
  (frame_rate audio < 800)%Z ->
  result_of (analyze_tuning path fs) = Return None.
Proof.
  intros Hfile Hrate.
  rewrite analyze_tuning_result. f_equal.
  unfold report_at. rewrite Hfile. unfold report_of.
  rewrite set_channels_mono_rate.
  unfold analyze_buffer.
  destruct (buffer_of audio) as [|x samples] eqn:Hbuf; [reflexivity|].
  destruct (frame_rate audio =? 0)%Z eqn:Hz; [reflexivity|].
  apply Z.eqb_neq in Hz.
  pose proof (low_rate_out_of_band (length (x :: samples)) (frame_rate audio)
                ltac:(cbn; lia) Hrate Hz) as Hmask.
  destruct (Np.bool_index (rfft (x :: samples)) _) as [vals|] eqn:Ev; [|reflexivity].
  destruct (Np.bool_index (Np.rfftfreq _ _) _) as [freqs|] eqn:Ef; [|reflexivity].
  apply (bool_index_none_kept _ _ _ Hmask) in Ev. subst vals. reflexivity.
Qed.

End Nyquist.

(** ** Scratch paths *)

Section ScratchPaths.

Lemma replace_from_absent (old new s : string) :
  contains s old = false -> Py.replace_from old new 0 s = s.
Proof.
  induction s as [|c s IH]; [reflexivity|].
  cbn [contains Py.replace_from]. intros H.
  apply orb_false_iff in H. destruct H as [Hp Hc].
  rewrite Hp. now rewrite IH.
Qed.

(** X8: an output path in which [.wav] does not occur is its own scratch
    path in every iteration: line 82 then writes each candidate over
    the output file. *)
Theorem temp_path_is_output_without_wav (output_path : string) (iteration : Z) :
  contains output_path ".wav" = false ->
  temp_output_path output_path iteration = output_path.
Proof. intros H. unfold temp_output_path, Py.replace. now apply replace_from_absent. Qed.

(** [.wav] cannot begin inside a stem without [.wav] and run into the
    [.wav] that ends the path. *)
Lemma no_wav_across_the_end (c : ascii) (s : string) :
  String.prefix ".wav" (String c s) = false ->
  String.prefix ".wav" (String c (s ++ ".wav")%string) = false.
Proof.
  destruct s as [|a [|b [|d s]]];
    cbv [String.append]; fold String.append; cbn -[ascii_dec]; intros H;
    repeat match goal with
           | |- context [ascii_dec ?x ?y] => destruct (ascii_dec x y); try discriminate
           end;
    auto; try (destruct s; discriminate H).
Qed.

Lemma replace_tags_single_wav (new stem : string) :
  contains stem ".wav" = false ->
  Py.replace_from ".wav" new 0 (stem ++ ".wav")%string = (stem ++ new)%string.
Proof.
  induction stem as [|c stem IH]; intros H.
  - clear H. transitivity (new ++ "")%string; [reflexivity|].
    induction new as [|c new IH]; [reflexivity|].
    change (String c new ++ "")%string with (String c (new ++ "")%string).
    now rewrite IH.
  - cbn [contains] in H. apply orb_false_iff in H. destruct H as [Hp Hc].
    change (String c stem ++ ".wav")%string with (String c (stem ++ ".wav")%string).
    cbn [Py.replace_from].
    rewrite (no_wav_across_the_end c stem Hp).
    now rewrite (IH Hc).
Qed.

Lemma append_cancel_l (p s t : string) : (p ++ s = p ++ t)%string -> s = t.
Proof.
  induction p as [|c p IH]; cbn; [auto|].
  intros [= H]. now apply IH.
Qed.

(** X9: for an output path that ends in [.wav] and has no other [.wav],
    the scratch path of an iteration is the path with [_temp_<i>] put in
    front of that ending, and it is not the output path. *)
Theorem temp_path_tags_single_wav (stem : string) (iteration : Z) :
  contains stem ".wav" = false ->
  temp_output_path (stem ++ ".wav")%string iteration
  = (stem ++ "_temp_" ++ Py.str iteration ++ ".wav")%string /\
  temp_output_path (stem ++ ".wav")%string iteration <> (stem ++ ".wav")%string.
Proof.
  intros H.
  assert (Heq : temp_output_path (stem ++ ".wav")%string iteration
                = (stem ++ "_temp_" ++ Py.str iteration ++ ".wav")%string)
    by (unfold temp_output_path, Py.replace; now apply replace_tags_single_wav).
  split; [exact Heq|].
  rewrite Heq. intros Hsame. apply append_cancel_l in Hsame. discriminate.
Qed.

End ScratchPaths.

(** The scratch path of [out.mp3], which has no [.wav]. *)
Lemma temp_path_is_output_without_wav_witness :
  contains "out.mp3" ".wav" = false /\
  temp_output_path "out.mp3" 2 = "out.mp3"%string.
Proof.
  split; [reflexivity|].
  apply (temp_path_is_output_without_wav "out.mp3" 2). reflexivity.
Defined.

(** The scratch path of a batch output. *)
Lemma temp_path_tags_single_wav_witness :
  contains "out/a_432Hz" ".wav" = false /\
  temp_output_path "out/a_432Hz.wav" 2 = "out/a_432Hz_temp_2.wav"%string.
Proof.
  split; [reflexivity|].
  exact (proj1 (temp_path_tags_single_wav "out/a_432Hz" 2 eq_refl)).
Defined.

(** ** Batch output paths *)

Section BatchPaths.

Lemma after_last_app (c : ascii) (p s : string) :
  Py.after_last c (p ++ s)%string
  = match Py.after_last c s with
    | O => Py.after_last c p
    | S k => (String.length p + S k)%nat
    end.
Proof.
  induction p as [|a p IH].
  - change ("" ++ s)%string with s. now destruct (Py.after_last c s).
  - change (String a p ++ s)%string with (String a (p ++ s)%string).
    cbn [Py.after_last String.length]. rewrite IH.
    destruct (Py.after_last c s) as [|k]; [reflexivity|].
    rewrite Nat.add_succ_r. cbn. lia.
Qed.

Lemma after_last_le (c : ascii) (s : string) :
  (Py.after_last c s <= String.length s)%nat.
Proof.
  induction s as [|a s IH]; cbn [Py.after_last String.length]; [lia|].
  destruct (Py.after_last c s); [destruct (Ascii.eqb a c)|]; lia.
Qed.

Lemma str_append_assoc (a b c : string) :
  ((a ++ b) ++ c = a ++ (b ++ c))%string.
Proof.
  induction a as [|x a IH]; [reflexivity|].
  change (String x a ++ b)%string with (String x (a ++ b)%string).
  change (String x (a ++ b) ++ c)%string with (String x ((a ++ b) ++ c)%string).
  change (String x a ++ (b ++ c))%string with (String x (a ++ (b ++ c))%string).
  now rewrite IH.
Qed.

Lemma str_length_append (a b : string) :
  String.length (a ++ b)%string = (String.length a + String.length b)%nat.
Proof.
  induction a as [|x a IH]; [reflexivity|].
  change (String x a ++ b)%string with (String x (a ++ b)%string).
  cbn [String.length]. now rewrite IH.
Qed.

Lemma last_char (a : string) (c : ascii) :
  get (String.length a - 1) a = Some c ->
  exists q, a = (q ++ String c "")%string.
Proof.
  induction a as [|x a IH]; [discriminate|].
  destruct a as [|y a].
  - cbn. intros [= ->]. now exists ""%string.
  - cbn [String.length] in *.
    replace (S (S (String.length a)) - 1)%nat with (S (String.length a)) by lia.
    replace (S (String.length a) - 1)%nat with (String.length a) in IH by lia.
    cbn [get]. intros H.
    destruct (IH H) as (q & Hq).
    exists (String x q). rewrite Hq. reflexivity.
Qed.

(** [os.path.join] puts the folder, with a separator when it needs
    one, in front of a relative path. *)
Lemma join_shape (a : string) :
  exists P,
    Py.after_last "/" P = String.length P /\
    forall x, String.prefix "/" x = false -> Py.join a x = (P ++ x)%string.
Proof.
  destruct (String.length a =? 0)%nat eqn:Hlen.
  - exists a. split.
    + apply Nat.eqb_eq in Hlen. destruct a; [reflexivity|discriminate].
    + intros x Hx. unfold Py.join. now rewrite Hx, Hlen.
  - destruct (Ascii.eqb (match get (String.length a - 1) a with
                         | Some c => c
                         | None => " "%char
                         end) "/") eqn:Hend.
    + exists a. split.
      * destruct (get (String.length a - 1) a) as [c|] eqn:Hget; [|discriminate].
        apply Ascii.eqb_eq in Hend. subst c.
        destruct (last_char _ _ Hget) as (q & ->).
        rewrite after_last_app. cbn.
        rewrite str_length_append. cbn. lia.
      * intros x Hx. unfold Py.join. now rewrite Hx, Hlen, Hend.
    + exists (a ++ "/")%string. split.
      * rewrite after_last_app. cbn. rewrite str_length_append. cbn. lia.
      * intros x Hx. unfold Py.join. rewrite Hx, Hlen, Hend. cbn [orb].
        now rewrite str_append_assoc.
Qed.

Lemma substring_app_skip (p s : string) (a n : nat) :
  substring (String.length p + a) n (p ++ s)%string = substring a n s.
Proof.
  induction p as [|c p IH]; [reflexivity|].
  change (String c p ++ s)%string with (String c (p ++ s)%string).
  cbn [String.length Nat.add substring]. exact IH.
Qed.

Lemma substring_app_take (p s : string) (k : nat) :
  substring 0 (String.length p + k) (p ++ s)%string = (p ++ substring 0 k s)%string.
Proof.
  induction p as [|c p IH]; [reflexivity|].
  change (String c p ++ s)%string with (String c (p ++ s)%string).
  cbn [String.length Nat.add substring]. rewrite IH. reflexivity.
Qed.

(** [os.path.splitext] looks at the last component only: a prefix that
    is empty or ends with the separator stays in front of the root. *)
Lemma splitext_prefixed (P rel : string) :
  Py.after_last "/" P = String.length P ->
  fst (Py.splitext (P ++ rel)%string) = (P ++ fst (Py.splitext rel))%string.
Proof.
  intros HP. unfold Py.splitext.
  rewrite !after_last_app, HP.
  assert (Hsep : match Py.after_last "/" rel with
                 | O => String.length P
                 | S k => (String.length P + S k)%nat
                 end = (String.length P + Py.after_last "/" rel)%nat)
    by (destruct (Py.after_last "/" rel); lia).
  rewrite Hsep. clear Hsep.
  set (sr := Py.after_last "/" rel).
  destruct (Py.after_last "." rel) as [|k] eqn:Hdot.
  - pose proof (after_last_le "." P) as Hle.
    assert ((String.length P + sr <? Py.after_last "." P)%nat = false) as ->
      by (apply Nat.ltb_ge; lia).
    reflexivity.
  - assert ((String.length P + sr <? String.length P + S k)%nat = (sr <? S k)%nat) as ->.
    { destruct (sr <? S k)%nat eqn:E.
      - apply Nat.ltb_lt in E. apply Nat.ltb_lt. lia.
      - apply Nat.ltb_ge in E. apply Nat.ltb_ge. lia. }
    replace (String.length P + S k - 1)%nat with (String.length P + k)%nat by lia.
    replace (S k - 1)%nat with k by lia.
    unfold Py.non_dot_between.
    replace (String.length P + k - (String.length P + sr))%nat with (k - sr)%nat by lia.
    rewrite substring_app_skip.
    destruct ((sr <? S k)%nat && _); cbn [fst]; [|reflexivity].
    apply substring_app_take.
Qed.

Lemma relative_root_stays_relative (rel : string) :
  String.prefix "/" rel = false ->
  String.prefix "/" (fst (Py.splitext rel) ++ "_432Hz.wav")%string = false.
Proof.
  intros Hrel.
  assert (Hsub : forall k, String.prefix "/" (substring 0 k rel ++ "_432Hz.wav")%string
                           = false).
  { intros k. destruct rel as [|c rel]; [now destruct k|].
    destruct k as [|k]; [reflexivity|].
    cbn [substring].
    change (String c ?s ++ ?t)%string with (String c (s ++ t)%string).
    cbn -[ascii_dec] in Hrel |- *.
    destruct (ascii_dec "/" c); [|reflexivity].
    destruct rel; discriminate. }
  unfold Py.splitext.
  destruct (_ && _); cbn [fst]; [apply Hsub|].
  destruct rel as [|c rel]; [reflexivity|].
  change (String c ?s ++ ?t)%string with (String c (s ++ t)%string).
  cbn -[ascii_dec] in Hrel |- *.
  destruct (ascii_dec "/" c); [|reflexivity].
  destruct rel; discriminate.
Qed.

(** X10: line 129 gives what the naming convention says: for a relative
    path, the output path is the output folder joined with the relative
    path without its extension and with [_432Hz.wav] added. *)
Theorem batch_output_path_as_described (output_folder relative_path : string) :
  String.prefix "/" relative_path = false ->
  batch_output_path output_folder relative_path
  = described_output_path output_folder relative_path.
Proof.
  intros Hrel.
  destruct (join_shape output_folder) as (P & HP & Hjoin).
  unfold batch_output_path, described_output_path.
  rewrite (Hjoin _ Hrel).
  rewrite (Hjoin _ (relative_root_stays_relative _ Hrel)).
  rewrite (splitext_prefixed _ _ HP).
  now rewrite str_append_assoc.
Qed.

End BatchPaths.

(** The batch output path of a file in a subfolder. *)
Lemma batch_output_path_as_described_witness :
  String.prefix "/" "drums/kick.mp3" = false /\
  batch_output_path "out" "drums/kick.mp3" = "out/drums/kick_432Hz.wav"%string.
Proof.
  split; [reflexivity|].
  rewrite (batch_output_path_as_described "out" "drums/kick.mp3" eq_refl).
  reflexivity.
Defined.

(** ** The batch goes through every file *)

Section BatchFacts.

Context {L : Collaborators}.
Variable relpath : string -> string -> string.
Variables (input_folder output_folder : string).

Lemma convert_each_all (files : list string) (fs : Files) :
  batch_result (convert_each relpath input_folder output_folder files fs) = Return tt /\
  converted_paths (batch_trace (convert_each relpath input_folder output_folder files fs))
  = map (fun file_path =>
           (file_path,
            batch_output_path output_folder (relpath file_path input_folder)))
        files.
Proof.
  revert fs.
  induction files as [|file_path rest IH]; intros fs; [now split|].
  cbn [convert_each].
  destruct (convert_bounded file_path
              (batch_output_path output_folder (relpath file_path input_folder))
              3 (1 # 2) fs) as ((verdict & Hv) & _).
  destruct (convert_to_432hz _ _ _ _ fs) as [[r fs1] events].
  unfold result_of in Hv. cbn [fst] in Hv. subst r.
  specialize (IH fs1).
  destruct (convert_each _ _ _ rest fs1) as [[r fs2] t].
  unfold batch_result, batch_trace in *. cbn [fst snd] in *.
  destruct IH as [-> IH]. split; [reflexivity|].
  cbn [converted_paths flat_map map app]. f_equal. exact IH.
Qed.

(** X11: a batch never stops at a file: no conversion raises, so every file
    with a supported suffix is converted once, in the order found, to
    its derived output path, whatever the verdicts; with no such file
    the batch prints line 123 and leaves the files as they are. *)
Theorem batch_converts_every_file (walk : list (string * list string)) (fs : Files) :
  let run := batch_convert relpath input_folder output_folder walk fs in
  batch_result run = Return tt /\
  converted_paths (batch_trace run)
  = map (fun file_path =>
           (file_path,
            batch_output_path output_folder (relpath file_path input_folder)))
        (audio_files walk) /\
  (audio_files walk = [] -> batch_trace run = [NoAudioFiles] /\ batch_files run = fs).
Proof.
  cbv zeta. unfold batch_convert.
  destruct (audio_files walk) as [|file_path rest] eqn:Hfiles.
  - repeat split; reflexivity.
  - destruct (convert_each_all (file_path :: rest) fs) as [Hr Hp].
    split; [exact Hr|]. split; [exact Hp|]. discriminate.
Qed.

End BatchFacts.

(** ** Further concrete runs *)

(** The analysis of a path with no file. *)
Lemma analyze_tuning_contains_errors_witness :
  (∅ : Files) !! "gone.wav" = None /\
  result_of (@analyze_tuning lab "gone.wav" ∅) = Return None /\
  In (Print (ErrorAnalyzing "gone.wav")) (trace_of (@analyze_tuning lab "gone.wav" ∅)).
Proof.
  split; [reflexivity|].
  apply (proj2 (proj2 (@analyze_tuning_contains_errors lab "gone.wav" ∅))).
  reflexivity.
Defined.

(** The conversion of two silent samples. *)
Lemma no_report_no_conversion_witness :
  result_of (@analyze_tuning lab "tone.wav" (one_file "tone.wav" (silence2 864)))
  = Return None /\
  result_of (@convert_to_432hz lab "tone.wav" "out.wav" 3 (1 # 2)
               (one_file "tone.wav" (silence2 864))) = Return false /\
  files_of (@convert_to_432hz lab "tone.wav" "out.wav" 3 (1 # 2)
              (one_file "tone.wav" (silence2 864)))
  = one_file "tone.wav" (silence2 864).
Proof.
  split; [vm_compute; reflexivity|].
  destruct (@no_report_no_conversion lab "tone.wav" "out.wav" 3 (1 # 2)
              (one_file "tone.wav" (silence2 864)))
    as (Hr & _ & _ & _ & Hfs); [vm_compute; reflexivity|].
  split; [exact Hr|exact Hfs].
Defined.

(** The source of a successful conversion is untouched. *)
Lemma convert_writes_confined_witness :
  "tone.wav"%string <> "out.wav"%string /\
  (forall i, "tone.wav"%string <> temp_output_path "out.wav" i) /\
  files_of (tone_run lab 864 3 (1 # 2)) !! "tone.wav" = Some (impulse2 864).
Proof.
  assert (Hout : "tone.wav"%string <> "out.wav"%string) by discriminate.
  assert (Htemp : forall i, "tone.wav"%string <> temp_output_path "out.wav" i).
  { intros i.
    pose proof (replace_tags_single_wav ("_temp_" ++ Py.str i ++ ".wav") "out" eq_refl)
      as Ht.
    change ("out" ++ ".wav")%string with "out.wav"%string in Ht.
    unfold temp_output_path, Py.replace. rewrite Ht. discriminate. }
  split; [exact Hout|]. split; [exact Htemp|].
  unfold tone_run.
  rewrite (@convert_writes_confined lab "tone.wav" "out.wav" 3 (1 # 2)
             (tone_files 864) "tone.wav" Hout Htemp).
  reflexivity.
Defined.

(** The one ratio of the run at 432 Hz is 1. *)
Lemma speed_ratios_bounded_witness :
  (forall z : Q, 0 <= Qabs z) /\
  Forall (fun r => (108 # 125) <= r /\ r <= (27 # 25))
         (applied_ratios (trace_of (tone_run lab 864 3 (1 # 2)))).
Proof.
  split; [exact Qabs_nonneg|].
  pose proof (@speed_ratios_bounded lab "tone.wav" "out.wav" 3 (1 # 2)
                Qabs_nonneg (tone_files 864)) as H.
  cbv zeta in H. destruct H as [H _].
  unfold tone_run. exact H.
Defined.

(** The scratch file of the failed run with the silent rate conversion. *)
Lemma scratch_left_after_failure_witness :
  tone_files 900 !! "tone.wav" = Some (impulse2 900) /\
  In (Print (VerificationFailed 3 (900 # 2))) (trace_of (tone_run lab_silent 900 3 (1 # 2))) /\
  resampled (trace_of (tone_run lab_silent 900 3 (1 # 2))) <> [] /\
  "out_temp_0.wav"%string <> "out.wav"%string /\
  files_of (tone_run lab_silent 900 3 (1 # 2)) !! "out_temp_0.wav" = Some (silence2 900).
Proof.
  split; [reflexivity|].
  split; [vm_compute; tauto|].
  split; [vm_compute; discriminate|].
  split; [discriminate|].
  pose proof (@scratch_left_after_failure lab_silent "tone.wav" "out.wav" 3 (1 # 2)
                (tone_files 900) (impulse2 900) 3%Z (900 # 2)) as H.
  cbv zeta in H.
  assert (Hgo : files_of (tone_run lab_silent 900 3 (1 # 2))
                  !! temp_output_path "out.wav"
                       (Z.of_nat (iterations (trace_of (tone_run lab_silent 900 3 (1 # 2)))) - 1)
                = Some (List.last (resampled (trace_of (tone_run lab_silent 900 3 (1 # 2))))
                                  (impulse2 900))).
  { apply H; [reflexivity|vm_compute; tauto|vm_compute; discriminate|vm_compute; discriminate]. }
  vm_compute in Hgo |- *. exact Hgo.
Defined.

(** The candidate of that run has the frame rate of its source. *)
Lemma candidates_keep_format_witness :
  tone_files 900 !! "tone.wav" = Some (impulse2 900) /\
  Forall (fun a' => frame_rate a' = 900%Z /\ channels a' = 1%Z)
         (resampled (trace_of (tone_run lab_silent 900 3 (1 # 2)))).
Proof.
  split; [reflexivity|].
  pose proof (@candidates_keep_format lab_silent "tone.wav" "out.wav" 3 (1 # 2)
                (tone_files 900) (impulse2 900) eq_refl) as H.
  unfold tone_run. exact H.
Defined.

(** An impulse at 700 frames per second: its one bin above zero is at
    350 Hz. *)
Lemma low_rate_no_report_witness :
  tone_files 700 !! "tone.wav" = Some (impulse2 700) /\
  (frame_rate (impulse2 700) < 800)%Z /\
  result_of (@analyze_tuning lab "tone.wav" (tone_files 700)) = Return None.
Proof.
  split; [reflexivity|]. split; [reflexivity|].
  apply (@low_rate_no_report lab "tone.wav" (tone_files 700) (impulse2 700));
    reflexivity.
Defined.

(** A folder with no supported file: the suffix test is on the exact
    characters, so [SONG.WAV] is not taken. *)
Lemma batch_converts_every_file_witness :
  audio_files [("in"%string, ["notes.txt"; "SONG.WAV"]%string)] = [] /\
  batch_trace (@batch_convert lab (fun p _ => p) "in" "out"
                 [("in"%string, ["notes.txt"; "SONG.WAV"]%string)]
                 (tone_files 864)) = [NoAudioFiles] /\
  batch_files (@batch_convert lab (fun p _ => p) "in" "out"
                 [("in"%string, ["notes.txt"; "SONG.WAV"]%string)]
                 (tone_files 864)) = tone_files 864.
Proof.
  split; [reflexivity|].
  apply (proj2 (proj2 (@batch_converts_every_file lab (fun p _ => p) "in" "out"
                         [("in"%string, ["notes.txt"; "SONG.WAV"]%string)]
                         (tone_files 864)))).
  reflexivity.
Defined.
